(** * ButtonExtraBehavior: the gesture disambiguator of
    [button_extra_behavior.py], embedded as a small imperative monad.

    The mixin reacts to pointer events ([on_touch_down], [on_touch_up]) and to
    the expiry of two Kivy clock events ([long_clock], [double_clock]).  The
    embedding keeps the attributes of [self] in a record, threads it through a
    monad with early [return] and exceptions, and records every call that
    leaves the class ([self.dispatch(...)] and the three [super()] calls) in a
    time-stamped log.

    Durations are Python floats in seconds in the source ([.25], [.2]); here
    they are integers, read as milliseconds.  Positions are passed through to
    [collide_point] unexamined.

    What the classes around the mixin do is not part of the source: the
    children, [collide_point], the clock, and the class that follows in the
    method resolution order.  The first two are fields of the widget; the
    clock is the small host of the section on the host; the calls to
    [super()] are recorded in the log and not interpreted, so "a press (a
    release) is forwarded" means that the call was made. *)

From Stdlib Require Import ZArith List String Bool Lia.
Import ListNotations.
Open Scope string_scope.
Open Scope list_scope.
Open Scope Z_scope.

(** ** Data *)

(** A Kivy [ClockEvent] as the code uses it: created by
    [Clock.schedule_once(callback, timeout)], re-scheduled by calling it,
    unscheduled by [cancel()], queried with [is_triggered].  The timeout is
    fixed when the event is created; [last_dt] is the instant of the last
    scheduling. *)
Record ClockEvent := mkClockEvent {
  timeout : Z;
  is_triggered : bool;
  last_dt : Z
}.

(** [Clock.schedule_once(callback, timeout)] at instant [now]. *)
Definition schedule_once (now timeout : Z) : ClockEvent :=
  {| timeout := timeout; is_triggered := true; last_dt := now |}.

(** [event.cancel()]. *)
Definition cancel (e : ClockEvent) : ClockEvent :=
  {| timeout := timeout e; is_triggered := false; last_dt := last_dt e |}.

(** [event()]: schedules the event again unless it is already scheduled. *)
Definition trigger (now : Z) (e : ClockEvent) : ClockEvent :=
  if is_triggered e then e
  else {| timeout := timeout e; is_triggered := true; last_dt := now |}.

(** The instant at which a scheduled event is due. *)
Definition deadline (e : ClockEvent) : Z := last_dt e + timeout e.

Definition due (t : Z) (e : ClockEvent) : bool :=
  is_triggered e && (deadline e <=? t).

(** A motion event: [touch.pos], [touch.profile], [touch.button]. *)
Record Touch := mkTouch {
  pos : Z * Z;
  profile : list string;
  button : string
}.

(** A child widget, seen through [child.dispatch(event_name, touch)]. *)
Record Child := mkChild {
  child_dispatch : string -> Touch -> bool
}.

(** [self.state] of the button: ["normal"] or ["down"]. *)
Inductive State := normal | down.

(** The attributes of [self] that the mixin reads or writes.
    [has_trigger_action] tells whether a class after [ButtonExtraBehavior] in
    the method resolution order provides [trigger_action] (a [ButtonBehavior]
    is mixed in); [children] and [collide_point] belong to the widget layer. *)
Record Widget := mkWidget {
  long_time : Z;
  double_time : Z;
  double_click_enabled : bool;
  after_long_press : bool;
  second_click : bool;
  long_clock : ClockEvent;
  double_clock : ClockEvent;
  state : State;
  children : list Child;
  collide_point : Z -> Z -> bool;
  has_trigger_action : bool
}.

Definition with_after_long_press (b : bool) (w : Widget) : Widget :=
  mkWidget (long_time w) (double_time w) (double_click_enabled w)
    b (second_click w) (long_clock w) (double_clock w) (state w)
    (children w) (collide_point w) (has_trigger_action w).

Definition with_second_click (b : bool) (w : Widget) : Widget :=
  mkWidget (long_time w) (double_time w) (double_click_enabled w)
    (after_long_press w) b (long_clock w) (double_clock w) (state w)
    (children w) (collide_point w) (has_trigger_action w).

Definition with_long_clock (e : ClockEvent) (w : Widget) : Widget :=
  mkWidget (long_time w) (double_time w) (double_click_enabled w)
    (after_long_press w) (second_click w) e (double_clock w) (state w)
    (children w) (collide_point w) (has_trigger_action w).

Definition with_double_clock (e : ClockEvent) (w : Widget) : Widget :=
  mkWidget (long_time w) (double_time w) (double_click_enabled w)
    (after_long_press w) (second_click w) (long_clock w) e (state w)
    (children w) (collide_point w) (has_trigger_action w).

Definition with_state (s : State) (w : Widget) : Widget :=
  mkWidget (long_time w) (double_time w) (double_click_enabled w)
    (after_long_press w) (second_click w) (long_clock w) (double_clock w) s
    (children w) (collide_point w) (has_trigger_action w).

Definition with_long_time (v : Z) (w : Widget) : Widget :=
  mkWidget v (double_time w) (double_click_enabled w)
    (after_long_press w) (second_click w) (long_clock w) (double_clock w)
    (state w) (children w) (collide_point w) (has_trigger_action w).

Definition with_double_time (v : Z) (w : Widget) : Widget :=
  mkWidget (long_time w) v (double_click_enabled w)
    (after_long_press w) (second_click w) (long_clock w) (double_clock w)
    (state w) (children w) (collide_point w) (has_trigger_action w).

Definition with_double_click_enabled (b : bool) (w : Widget) : Widget :=
  mkWidget (long_time w) (double_time w) b
    (after_long_press w) (second_click w) (long_clock w) (double_clock w)
    (state w) (children w) (collide_point w) (has_trigger_action w).

(** What leaves the class: an event dispatched on [self], or one of the three
    calls to the next class in the method resolution order. *)
Inductive effect :=
| Dispatch (event_name : string)
| SuperOnTouchDown (touch : Touch)
| SuperOnTouchUp (touch : Touch)
| SuperTriggerAction.

Inductive exn := AttributeError.

(** What a handler returns: [True], or [None] when it falls off its end. *)
Inductive retval := PyTrue | PyNone.

(** ** The monad: state, log, early return, exceptions *)

(** The running system: the widget, the clock's current instant and the log
    of effects, each stamped with the instant it happened. *)
Record Sys := mkSys {
  self : Widget;
  now : Z;
  log : list (Z * effect)
}.

Inductive outcome (A : Type) :=
| Next (a : A) (s : Sys)
| Return (v : retval) (s : Sys)
| Raise (e : exn) (s : Sys).

Arguments Next {A} a s.
Arguments Return {A} v s.
Arguments Raise {A} e s.

Definition M (A : Type) := Sys -> outcome A.

Definition ret {A} (a : A) : M A := fun s => Next a s.

Definition bind {A B} (c : M A) (k : A -> M B) : M B :=
  fun s =>
    match c s with
    | Next a s' => k a s'
    | Return v s' => Return v s'
    | Raise e s' => Raise e s'
    end.

Declare Scope py_scope.
Delimit Scope py_scope with py.
Notation "x <- c ;; k" := (bind c (fun x => k))
  (at level 61, c at next level, right associativity) : py_scope.
Notation "c ;; k" := (bind c (fun _ => k))
  (at level 61, right associativity) : py_scope.
Open Scope py_scope.

Definition skip : M unit := ret tt.
Definition return_ {A} (v : retval) : M A := fun s => Return v s.
Definition raise {A} (e : exn) : M A := fun s => Raise e s.

Definition when (b : bool) (c : M unit) : M unit := if b then c else skip.

(** [try: body except AttributeError: handler]. *)
Definition try_except_AttributeError {A} (body handler : M A) : M A :=
  fun s =>
    match body s with
    | Raise AttributeError s' => handler s'
    | o => o
    end.

(** A call of a function whose body is [body]: the value of its [return], or
    [None]; an exception goes on to the caller. *)
Definition call (body : M unit) : M retval :=
  fun s =>
    match body s with
    | Next _ s' => Next PyNone s'
    | Return v s' => Next v s'
    | Raise e s' => Raise e s'
    end.

Definition get {A} (f : Widget -> A) : M A := fun s => Next (f (self s)) s.

Definition modify (f : Widget -> Widget) : M unit :=
  fun s => Next tt (mkSys (f (self s)) (now s) (log s)).

Definition emit (e : effect) : M unit :=
  fun s => Next tt (mkSys (self s) (now s) (log s ++ [(now s, e)])).

(** [self.dispatch(event_name)]. *)
Definition dispatch (event_name : string) : M unit :=
  emit (Dispatch event_name).

(** [self.long_clock()], [self.long_clock.cancel()], and the same for
    [double_clock]. *)
Definition long_clock_call : M unit :=
  fun s => modify (fun w => with_long_clock (trigger (now s) (long_clock w)) w) s.

Definition long_clock_cancel : M unit :=
  modify (fun w => with_long_clock (cancel (long_clock w)) w).

Definition double_clock_call : M unit :=
  fun s =>
    modify (fun w => with_double_clock (trigger (now s) (double_clock w)) w) s.

Definition double_clock_cancel : M unit :=
  modify (fun w => with_double_clock (cancel (double_clock w)) w).

(** The calls to [super(ButtonExtraBehavior, self)].  Every widget has
    [on_touch_down] and [on_touch_up]; [trigger_action] exists only when a
    [ButtonBehavior] follows in the method resolution order, and looking it up
    otherwise raises [AttributeError].  The calls are recorded, not
    interpreted: what the next class does when called, its own writes to
    [state] included, is outside the source, so after such a call [state]
    holds the mixin's last write and nothing is claimed of the next class. *)
Definition super_on_touch_down (touch : Touch) : M unit :=
  emit (SuperOnTouchDown touch).

Definition super_on_touch_up (touch : Touch) : M unit :=
  emit (SuperOnTouchUp touch).

Definition super_trigger_action : M unit :=
  has <- get has_trigger_action ;;
  if has then emit SuperTriggerAction else raise AttributeError.

(** ["button" in touch.profile], [touch.button == name]. *)
Definition in_profile (name : string) (touch : Touch) : bool :=
  existsb (String.eqb name) (profile touch).

Definition button_is (name : string) (touch : Touch) : bool :=
  String.eqb (button touch) name.

(** [for child in self.children[:]: if child.dispatch(name, touch): return True] *)
Fixpoint for_children (name : string) (touch : Touch) (cs : list Child)
  : M unit :=
  match cs with
  | [] => skip
  | child :: rest =>
      if child_dispatch child name touch then return_ PyTrue
      else for_children name touch rest
  end.

(** ** The class *)

(** [__init__] at instant [t], with the three properties as the keyword
    arguments set them (defaults [.25], [.2], [False]) and the widget layer's
    part of [self]; [state] starts as ["normal"].  Each clock event is created
    with the value its property has at this moment, and cancelled at once. *)
Definition __init__ (t : Z) (long_time double_time : Z)
    (double_click_enabled : bool) (children : list Child)
    (collide_point : Z -> Z -> bool) (has_trigger_action : bool) : Widget :=
  {| long_time := long_time;
     double_time := double_time;
     double_click_enabled := double_click_enabled;
     after_long_press := false;
     long_clock := cancel (schedule_once t long_time);
     second_click := false;
     double_clock := cancel (schedule_once t double_time);
     state := normal;
     children := children;
     collide_point := collide_point;
     has_trigger_action := has_trigger_action |}.

Definition on_touch_down_body (touch : Touch) : M unit :=
  cs <- get children ;;
  for_children "on_touch_down" touch cs ;;
  collide <- get (fun w => collide_point w (fst (pos touch)) (snd (pos touch))) ;;
  when collide (
    modify (with_after_long_press false) ;;
    modify (with_second_click false) ;;
    when (in_profile "button" touch) (
      if button_is "right" touch then
        dispatch "on_right_click" ;;
        modify (with_state down) ;;
        return_ PyTrue
      else if button_is "middle" touch then
        modify (with_state down) ;;
        dispatch "on_middle_click" ;;
        return_ PyTrue
      else if button_is "scrollup" touch then
        dispatch "on_scroll_up" ;;
        return_ PyTrue
      else if button_is "scrolldown" touch then
        dispatch "on_scroll_down" ;;
        return_ PyTrue
      else skip) ;;
    double_triggered <- get (fun w => is_triggered (double_clock w)) ;;
    (if double_triggered then
       modify (with_second_click true) ;;
       modify (with_state down) ;;
       double_clock_cancel ;;
       dispatch "on_double_click" ;;
       return_ PyTrue
     else
       enabled <- get double_click_enabled ;;
       if enabled then
         double_clock_call
       else
         super_on_touch_down touch) ;;
    long_clock_call ;;
    return_ PyTrue).

Definition on_touch_down (touch : Touch) : M retval :=
  call (on_touch_down_body touch).

Definition on_touch_up_body (touch : Touch) : M unit :=
  cs <- get children ;;
  for_children "on_touch_up" touch cs ;;
  collide <- get (fun w => collide_point w (fst (pos touch)) (snd (pos touch))) ;;
  when collide (
    modify (with_state normal) ;;
    when (in_profile "button" touch
          && (button_is "scrollup" touch || button_is "scrolldown" touch))
      (return_ PyTrue) ;;
    long_triggered <- get (fun w => is_triggered (long_clock w)) ;;
    (if long_triggered then
       long_clock_cancel ;;
       enabled <- get double_click_enabled ;;
       when enabled (return_ PyTrue)
     else
       second <- get second_click ;;
       when second (return_ PyTrue) ;;
       after <- get after_long_press ;;
       when after (return_ PyTrue)) ;;
    super_on_touch_up touch ;;
    return_ PyTrue).

Definition on_touch_up (touch : Touch) : M retval :=
  call (on_touch_up_body touch).

Definition send_press_body : M unit :=
  try_except_AttributeError
    (long_triggered <- get (fun w => is_triggered (long_clock w)) ;;
     if negb long_triggered then
       super_trigger_action
     else
       modify (with_state down))
    skip.

Definition send_press : M retval := call send_press_body.

Definition long_pressed_body : M unit :=
  modify (with_after_long_press true) ;;
  dispatch "on_long_press".

Definition long_pressed : M retval := call long_pressed_body.

(** ** The host: the clock and the delivery of events

    Kivy's clock runs the callback of a scheduled event once its timeout has
    elapsed, after marking the event as no longer triggered.  The host is
    idealised here: a callback runs at the event's deadline (never before the
    current instant), the two events run in the order of their deadlines, and
    on equal deadlines in the order in which they were scheduled
    ([on_touch_down] schedules [double_clock] before [long_clock]). *)

Inductive timer := LongClock | DoubleClock.

Definition set_now (t : Z) : M unit :=
  fun s => Next tt (mkSys (self s) (Z.max (now s) t) (log s)).

(** The clock runs [long_clock]'s callback, [self.long_pressed]. *)
Definition fire_long : M unit :=
  e <- get long_clock ;;
  set_now (deadline e) ;;
  modify (with_long_clock (cancel e)) ;;
  _ <- long_pressed ;;
  skip.

(** The clock runs [double_clock]'s callback, [self.send_press]. *)
Definition fire_double : M unit :=
  e <- get double_clock ;;
  set_now (deadline e) ;;
  modify (with_double_clock (cancel e)) ;;
  _ <- send_press ;;
  skip.

Definition fire (k : timer) : M unit :=
  match k with
  | LongClock => fire_long
  | DoubleClock => fire_double
  end.

(** Which event the clock runs next, among those due at instant [t]. *)
Definition next_due (t : Z) (w : Widget) : option timer :=
  let l := long_clock w in
  let d := double_clock w in
  match due t l, due t d with
  | false, false => None
  | true, false => Some LongClock
  | false, true => Some DoubleClock
  | true, true =>
      if deadline l <? deadline d then Some LongClock
      else if deadline d <? deadline l then Some DoubleClock
      else if last_dt l <? last_dt d then Some LongClock
      else Some DoubleClock
  end.

Definition step_clock (t : Z) : M unit :=
  k <- get (next_due t) ;;
  match k with
  | Some k => fire k
  | None => skip
  end.

(** Let time pass until instant [t].  Neither callback schedules an event,
    so two steps run everything that is due (see [advance_quiescent]). *)
Definition advance (t : Z) : M unit :=
  step_clock t ;;
  step_clock t ;;
  set_now t.

(** What the host delivers: pointer events, and assignments to the three
    properties. *)
Inductive input :=
| TouchDown (touch : Touch)
| TouchUp (touch : Touch)
| SetLongTime (v : Z)
| SetDoubleTime (v : Z)
| SetDoubleClickEnabled (b : bool).

Definition deliver (i : input) : M unit :=
  match i with
  | TouchDown touch => _ <- on_touch_down touch ;; skip
  | TouchUp touch => _ <- on_touch_up touch ;; skip
  | SetLongTime v => modify (with_long_time v)
  | SetDoubleTime v => modify (with_double_time v)
  | SetDoubleClickEnabled b => modify (with_double_click_enabled b)
  end.

(** A timed run: each input is delivered at its instant, after the clock has
    run what was due until then. *)
Fixpoint run (inputs : list (Z * input)) : M unit :=
  match inputs with
  | [] => skip
  | (t, i) :: rest => advance t ;; deliver i ;; run rest
  end.

(** A run followed by a quiet period until instant [horizon]. *)
Definition run_until (horizon : Z) (inputs : list (Z * input)) : M unit :=
  run inputs ;; advance horizon.

Definition boot (t : Z) (w : Widget) : Sys :=
  {| self := w; now := t; log := [] |}.

(** ** Reading the log *)

Definition is_dispatch (name : string) (e : effect) : bool :=
  match e with
  | Dispatch n => String.eqb n name
  | _ => false
  end.

(** A press handed to the next class: [super().on_touch_down(touch)] or
    [super().trigger_action()]. *)
Definition is_press_confirm (e : effect) : bool :=
  match e with
  | SuperOnTouchDown _ | SuperTriggerAction => true
  | _ => false
  end.

(** A release handed to the next class: [super().on_touch_up(touch)]. *)
Definition is_release_confirm (e : effect) : bool :=
  match e with
  | SuperOnTouchUp _ => true
  | _ => false
  end.

Definition count (p : effect -> bool) (l : list (Z * effect)) : nat :=
  List.length (filter (fun x => p (snd x)) l).

Definition dispatched (name : string) (l : list (Z * effect)) : nat :=
  count (is_dispatch name) l.

Definition press_confirms (l : list (Z * effect)) : nat :=
  count is_press_confirm l.

Definition release_confirms (l : list (Z * effect)) : nat :=
  count is_release_confirm l.

(** ** Touches *)

Definition is_wheel (touch : Touch) : bool :=
  in_profile "button" touch
  && (button_is "scrollup" touch || button_is "scrolldown" touch).

(** A touch that [on_touch_down] treats as a plain contact: it carries no
    button identity, or one that is none of the four special ones. *)
Definition is_plain (touch : Touch) : bool :=
  negb (in_profile "button" touch
        && (button_is "right" touch || button_is "middle" touch
            || button_is "scrollup" touch || button_is "scrolldown" touch)).

(** No child reports the event as handled. *)
Definition unclaimed (name : string) (touch : Touch) (w : Widget) : bool :=
  negb (existsb (fun child => child_dispatch child name touch) (children w)).

Definition inside (touch : Touch) (w : Widget) : bool :=
  collide_point w (fst (pos touch)) (snd (pos touch)).

(** A touch that reaches the widget's own handling, on the way down and on
    the way up. *)
Definition targets (touch : Touch) (w : Widget) : bool :=
  unclaimed "on_touch_down" touch w && unclaimed "on_touch_up" touch w
  && inside touch w.

(** ** Concrete widgets and touches used in the examples *)

Definition everywhere : Z -> Z -> bool := fun _ _ => true.
Definition nowhere : Z -> Z -> bool := fun _ _ => false.

Definition greedy_child : Child := {| child_dispatch := fun _ _ => true |}.

Definition finger : Touch :=
  {| pos := (5, 5); profile := ["pos"]; button := "" |}.

Definition mouse (b : string) : Touch :=
  {| pos := (5, 5); profile := ["pos"; "button"]; button := b |}.

(** A button ([ButtonBehavior] mixed in) with the default durations. *)
Definition a_button (double_click_enabled : bool) : Widget :=
  __init__ 0 250 200 double_click_enabled [] everywhere true.

(** An image button: no [ButtonBehavior], hence no [trigger_action]. *)
Definition an_image (double_click_enabled : bool) : Widget :=
  __init__ 0 250 200 double_click_enabled [] everywhere false.

Definition final {A} (o : outcome A) : Sys :=
  match o with
  | Next _ s | Return _ s | Raise _ s => s
  end.

Definition final_log {A} (o : outcome A) : list (Z * effect) := log (final o).

(** The system after one tap (down at 0, up at 10) on a button with double
    click enabled: [double_clock] is pending, [long_clock] is not. *)
Definition after_one_tap : Sys :=
  final (run [(0, TouchDown finger); (10, TouchUp finger)]
           (boot 0 (a_button true))).

(** The same system when a second tap is about to arrive, at 150. *)
Definition before_second_tap : Sys := final (advance 150 after_one_tap).

(** A button shown as pressed: a right pointer-down has just been handled. *)
Definition after_right_down : Sys :=
  final (on_touch_down (mouse "right") (boot 0 (a_button false))).

(** ** Vocabulary of the properties *)

(** The two handlers share their first steps: offer the event to the
    children, then test the position. *)
Inductive direction := Down | Up.

Definition handler (d : direction) : Touch -> M retval :=
  match d with
  | Down => on_touch_down
  | Up => on_touch_up
  end.

Definition event_name (d : direction) : string :=
  match d with
  | Down => "on_touch_down"
  | Up => "on_touch_up"
  end.



(** The gesture that [on_touch_down] dispatches for a wheel button. *)
Definition scroll_event (touch : Touch) : string :=
  if button_is "scrollup" touch then "on_scroll_up" else "on_scroll_down".

(** The widget as [__init__] leaves its timers: neither is pending, and each
    is bound to the value of its property. *)
Definition at_rest (w : Widget) : bool :=
  negb (is_triggered (long_clock w)) && negb (is_triggered (double_clock w))
  && (timeout (long_clock w) =? long_time w)
  && (timeout (double_clock w) =? double_time w).

(** One contact: down at [t0], up at [t1]. *)
Definition press_and_hold (touch : Touch) (t0 t1 : Z) : list (Z * input) :=
  [(t0, TouchDown touch); (t1, TouchUp touch)].

(** Two taps: down and up of [a] at [t0] and [u0], of [b] at [t1] and [u1]. *)
Definition two_taps (a b : Touch) (t0 u0 t1 u1 : Z) : list (Z * input) :=
  [(t0, TouchDown a); (u0, TouchUp a); (t1, TouchDown b); (u1, TouchUp b)].

(** The two timers keep the timeouts they had. *)
Definition same_timeouts (w w' : Widget) : Prop :=
  timeout (long_clock w') = timeout (long_clock w)
  /\ timeout (double_clock w') = timeout (double_clock w).

(** Both durations are reassigned after construction, then the button is
    pressed at 10. *)
Definition reassigned_then_pressed : list (Z * input) :=
  [(0, SetLongTime 1000); (0, SetDoubleTime 50); (10, TouchDown finger)].

(** ** The properties as the specification words them, where the code
    departs from them *)

(** C1 as worded: on expiry of the double-click timer the state becomes
    pressed and nothing is forwarded when the long-press timer is no longer
    pending, and the press is forwarded when it is. *)
Definition C1_as_stated : Prop :=
  forall s : Sys,
    is_triggered (double_clock (self s)) = true ->
    has_trigger_action (self s) = true ->
    exists s', fire_double s = Next tt s'
      /\ (is_triggered (long_clock (self s)) = false ->
          state (self s') = down
          /\ press_confirms (log s') = press_confirms (log s))
      /\ (is_triggered (long_clock (self s)) = true ->
          press_confirms (log s') = S (press_confirms (log s))).


(** C3 as worded: a plain contact held for at least the long-press delay
    yields one onLongPress and neither a press nor a release is forwarded,
    whatever the value of [double_click_enabled]. *)
Definition C3_as_stated : Prop :=
  forall (w : Widget) (touch : Touch) (t0 t1 h : Z),
    at_rest w = true ->
    is_plain touch = true ->
    targets touch w = true ->
    t0 <= t1 ->
    t0 + long_time w <= t1 ->
    exists s',
      run_until h (press_and_hold touch t0 t1) (boot t0 w) = Next tt s'
      /\ dispatched "on_long_press" (log s') = 1%nat
      /\ press_confirms (log s') = 0%nat
      /\ release_confirms (log s') = 0%nat.

(** C4 as worded: an event outside the widget, or claimed by a child, leaves
    the state alone and is reported as not handled. *)
Definition C4_as_stated : Prop :=
  forall (d : direction) (touch : Touch) (s : Sys),
    inside touch (self s) = false
    \/ unclaimed (event_name d) touch (self s) = false ->
    handler d touch s = Next PyNone s.

(** C5 as worded: every plain pointer-down that reaches the widget leaves the
    long-press timer pending, the second tap of a double click included. *)
Definition C5_as_stated : Prop :=
  forall (touch : Touch) (s : Sys),
    is_plain touch = true ->
    unclaimed "on_touch_down" touch (self s) = true ->
    inside touch (self s) = true ->
    exists s', on_touch_down touch s = Next PyTrue s'
      /\ is_triggered (long_clock (self s')) = true.

(** C6 as worded: neither the wheel's pointer-down nor its release changes
    the interaction state or forwards a press or a release. *)
Definition C6_as_stated : Prop :=
  forall (touch : Touch) (s : Sys),
    is_wheel touch = true ->
    targets touch (self s) = true ->
    (exists s', on_touch_down touch s = Next PyTrue s'
       /\ state (self s') = state (self s)
       /\ press_confirms (log s') = press_confirms (log s)
       /\ release_confirms (log s') = release_confirms (log s))
    /\ (exists s', on_touch_up touch s = Next PyTrue s'
          /\ state (self s') = state (self s)
          /\ press_confirms (log s') = press_confirms (log s)
          /\ release_confirms (log s') = release_confirms (log s)).

(** C7 as worded: with double click enabled, any two plain taps whose
    pointer-downs are less than the double-click window apart yield exactly
    one onDoubleClick, at the second pointer-down, and neither a press nor a
    release is forwarded; nothing is asked of the widget before the first
    tap. *)
Definition C7_as_stated : Prop :=
  forall (w : Widget) (a b : Touch) (t0 u0 t1 u1 h : Z),
    double_click_enabled w = true ->
    is_plain a = true -> targets a w = true ->
    is_plain b = true -> targets b w = true ->
    t0 <= u0 -> u0 <= t1 -> t1 <= u1 ->
    t1 - t0 < double_time w ->
    exists s',
      run_until h (two_taps a b t0 u0 t1 u1) (boot t0 w) = Next tt s'
      /\ dispatched "on_double_click" (log s') = 1%nat
      /\ In (t1, Dispatch "on_double_click") (log s')
      /\ press_confirms (log s') = 0%nat
      /\ release_confirms (log s') = 0%nat.


(** ** Further vocabulary: whole runs and the demo *)

(** A press handed on by [send_press]: [super().trigger_action()]. *)
Definition is_trigger_action (e : effect) : bool :=
  match e with
  | SuperTriggerAction => true
  | _ => false
  end.

Definition trigger_actions (l : list (Z * effect)) : nat :=
  count is_trigger_action l.

(** No input of the run assigns [True] to [double_click_enabled]. *)
Definition never_enables (inputs : list (Z * input)) : bool :=
  forallb (fun x => match snd x with
                    | SetDoubleClickEnabled true => false
                    | _ => true
                    end) inputs.


(** A contact during which the wheel ticks once, at [tw]: the wheel sends its
    pointer-down and its release at the same instant. *)
Definition hold_with_wheel_tick (touch wheel : Touch) (t0 tw t1 : Z)
  : list (Z * input) :=
  [(t0, TouchDown touch); (tw, TouchDown wheel); (tw, TouchUp wheel);
   (t1, TouchUp touch)].

(** What [on_touch_up] leaves alone: everything but [state] and
    [long_clock]. *)
Definition release_frame (w w' : Widget) : Prop :=
  long_time w' = long_time w
  /\ double_time w' = double_time w
  /\ double_click_enabled w' = double_click_enabled w
  /\ after_long_press w' = after_long_press w
  /\ second_click w' = second_click w
  /\ double_clock w' = double_clock w
  /\ timeout (long_clock w') = timeout (long_clock w).

(** What a user configures besides the timers: the three properties and the
    widget layer's part of [self]. *)
Definition same_config (w w' : Widget) : Prop :=
  long_time w' = long_time w
  /\ double_time w' = double_time w
  /\ double_click_enabled w' = double_click_enabled w
  /\ children w' = children w
  /\ collide_point w' = collide_point w
  /\ has_trigger_action w' = has_trigger_action w.

(** The run delivers pointer events only, no assignment to a property. *)
Definition only_pointer_events (inputs : list (Z * input)) : bool :=
  forallb (fun x => match snd x with
                    | TouchDown _ | TouchUp _ => true
                    | _ => false
                    end) inputs.

(** The demo's [Base.change_state]: the text it gives to the label, for a
    widget that is a [Button] or not. *)
Definition change_state (is_button : bool) (text : string) : string :=
  let kind := if is_button then "Button" else "Kivy Image" in
  ("Last click was on the " ++ kind ++ " and it was a " ++ text)%string.

(** ** Symbolic evaluation of the handlers *)

Lemma for_children_spec (name : string) (touch : Touch) (cs : list Child)
    (s : Sys) :
  for_children name touch cs s =
  if existsb (fun child => child_dispatch child name touch) cs
  then Return PyTrue s else Next tt s.
Proof.
  induction cs as [|c cs IH]; simpl; [reflexivity|].
  destruct (child_dispatch c name touch); simpl; [reflexivity|exact IH].
Qed.

Ltac py_unfold :=
  unfold on_touch_down, on_touch_up, send_press, long_pressed, call,
    on_touch_down_body, on_touch_up_body, send_press_body, long_pressed_body,
    try_except_AttributeError, super_trigger_action, super_on_touch_down,
    super_on_touch_up, long_clock_call, long_clock_cancel, double_clock_call,
    double_clock_cancel, dispatch, emit, modify, get, when, skip, return_,
    raise, bind, ret.

(** ** C4: events claimed by a child, or outside the widget *)

(** C4 (counterexample): a pointer-down that a child claims is reported as
    handled, not as "not handled". *)
Lemma C4_counterexample : ~ C4_as_stated.
Proof.
  intro H.
  specialize
    (H Down finger
       (boot 0 (__init__ 0 250 200 false [greedy_child] everywhere true))).
  vm_compute in H.
  assert (G : Next PyTrue
                (boot 0 (__init__ 0 250 200 false [greedy_child]
                           everywhere true))
              <> Next PyNone
                   (boot 0 (__init__ 0 250 200 false [greedy_child]
                              everywhere true))) by discriminate.
  apply G. apply H. right. reflexivity.
Qed.

(** C4 (amended): for a pointer-down or pointer-up that lies outside the
    widget or that a child claims, the handler changes nothing; it returns
    "not handled" ([None]) when no child claimed the event, and "handled"
    ([True]) when a child did. *)
Theorem C4_gated_event_is_noop (d : direction) (touch : Touch) (s : Sys) :
  inside touch (self s) = false
  \/ unclaimed (event_name d) touch (self s) = false ->
  handler d touch s =
  Next (if unclaimed (event_name d) touch (self s) then PyNone else PyTrue) s.
Proof.
  unfold unclaimed, inside.
  intros H.
  destruct d; simpl; py_unfold; rewrite for_children_spec;
    destruct (existsb _ (children (self s))); simpl; try reflexivity;
    destruct H as [H|H]; try discriminate; rewrite H; reflexivity.
Qed.

(** C4, at a touch outside a widget without children, and at a pointer-up
    that a child claims. *)
Lemma C4_gated_event_is_noop_witness :
  handler Down finger
    (boot 0 (__init__ 0 250 200 false [] nowhere true)) =
  Next PyNone (boot 0 (__init__ 0 250 200 false [] nowhere true))
  /\ handler Up finger
       (boot 0 (__init__ 0 250 200 false [greedy_child] everywhere true)) =
     Next PyTrue
       (boot 0 (__init__ 0 250 200 false [greedy_child] everywhere true)).
Proof.
  split.
  - apply (C4_gated_event_is_noop Down finger
             (boot 0 (__init__ 0 250 200 false [] nowhere true))).
    left. reflexivity.
  - apply (C4_gated_event_is_noop Up finger
             (boot 0 (__init__ 0 250 200 false [greedy_child]
                        everywhere true))).
    right. reflexivity.
Defined.

(** ** How a touch that reaches the widget is handled *)

Lemma is_plain_no_special (touch : Touch) :
  is_plain touch = true ->
  in_profile "button" touch = false
  \/ (button_is "right" touch = false /\ button_is "middle" touch = false
      /\ button_is "scrollup" touch = false
      /\ button_is "scrolldown" touch = false).
Proof.
  unfold is_plain.
  destruct (in_profile "button" touch); [|left; reflexivity].
  destruct (button_is "right" touch), (button_is "middle" touch),
    (button_is "scrollup" touch), (button_is "scrolldown" touch);
    simpl; intros H; try discriminate.
  right. repeat split.
Qed.

Lemma is_plain_not_wheel (touch : Touch) :
  is_plain touch = true -> is_wheel touch = false.
Proof.
  intros H. unfold is_wheel.
  destruct (is_plain_no_special touch H) as [E|(_ & _ & E1 & E2)].
  - rewrite E. reflexivity.
  - rewrite E1, E2. apply andb_false_r.
Qed.

(** A plain pointer-down that reaches the widget's own handling. *)
Lemma on_touch_down_plain (touch : Touch) (s : Sys) :
  is_plain touch = true ->
  unclaimed "on_touch_down" touch (self s) = true ->
  inside touch (self s) = true ->
  on_touch_down touch s =
  let w := with_second_click false (with_after_long_press false (self s)) in
  if is_triggered (double_clock w) then
    Next PyTrue
      (mkSys
         (with_double_clock (cancel (double_clock w))
            (with_state down (with_second_click true w)))
         (now s) (log s ++ [(now s, Dispatch "on_double_click")]))
  else if double_click_enabled w then
    Next PyTrue
      (mkSys
         (with_long_clock (trigger (now s) (long_clock w))
            (with_double_clock (trigger (now s) (double_clock w)) w))
         (now s) (log s))
  else
    Next PyTrue
      (mkSys (with_long_clock (trigger (now s) (long_clock w)) w)
         (now s) (log s ++ [(now s, SuperOnTouchDown touch)])).
Proof.
  unfold unclaimed, inside. intros P U I.
  apply negb_true_iff in U.
  py_unfold. rewrite for_children_spec, U. simpl. rewrite I. simpl.
  destruct (is_plain_no_special touch P) as [E|(E1 & E2 & E3 & E4)].
  - rewrite E. simpl.
    destruct (is_triggered (double_clock (self s))); simpl; [reflexivity|].
    destruct (double_click_enabled (self s)); reflexivity.
  - destruct (in_profile "button" touch); simpl;
      rewrite ?E1, ?E2, ?E3, ?E4; simpl;
      (destruct (is_triggered (double_clock (self s))); simpl;
       [reflexivity|];
       destruct (double_click_enabled (self s)); reflexivity).
Qed.

(** A pointer-up that reaches the widget's own handling and is not a wheel
    release. *)
Lemma on_touch_up_button (touch : Touch) (s : Sys) :
  is_wheel touch = false ->
  unclaimed "on_touch_up" touch (self s) = true ->
  inside touch (self s) = true ->
  on_touch_up touch s =
  let w := with_state normal (self s) in
  if is_triggered (long_clock w) then
    if double_click_enabled w then
      Next PyTrue
        (mkSys (with_long_clock (cancel (long_clock w)) w) (now s) (log s))
    else
      Next PyTrue
        (mkSys (with_long_clock (cancel (long_clock w)) w) (now s)
           (log s ++ [(now s, SuperOnTouchUp touch)]))
  else if second_click w || after_long_press w then
    Next PyTrue (mkSys w (now s) (log s))
  else
    Next PyTrue (mkSys w (now s) (log s ++ [(now s, SuperOnTouchUp touch)])).
Proof.
  unfold unclaimed, inside, is_wheel. intros W U I.
  apply negb_true_iff in U.
  py_unfold. rewrite for_children_spec, U. simpl. rewrite I. simpl.
  rewrite W. simpl.
  destruct (is_triggered (long_clock (self s))); simpl.
  - destruct (double_click_enabled (self s)); reflexivity.
  - destruct (second_click (self s)); simpl; [reflexivity|].
    destruct (after_long_press (self s)); reflexivity.
Qed.

(** The callback of [double_clock]. *)
Lemma send_press_spec (s : Sys) :
  send_press s =
  if is_triggered (long_clock (self s)) then
    Next PyNone (mkSys (with_state down (self s)) (now s) (log s))
  else if has_trigger_action (self s) then
    Next PyNone (mkSys (self s) (now s) (log s ++ [(now s, SuperTriggerAction)]))
  else Next PyNone s.
Proof.
  py_unfold.
  destruct (is_triggered (long_clock (self s))); simpl; [reflexivity|].
  destruct (has_trigger_action (self s)); reflexivity.
Qed.

(** The [super()] call of [send_press] fails when no [ButtonBehavior] is
    mixed in. *)
Lemma super_trigger_action_absent (s : Sys) :
  has_trigger_action (self s) = false ->
  super_trigger_action s = Raise AttributeError s.
Proof. intros H. py_unfold. rewrite H. reflexivity. Qed.

Lemma fire_double_spec (s : Sys) :
  fire_double s =
  let t := Z.max (now s) (deadline (double_clock (self s))) in
  let w := with_double_clock (cancel (double_clock (self s))) (self s) in
  if is_triggered (long_clock (self s)) then
    Next tt (mkSys (with_state down w) t (log s))
  else if has_trigger_action (self s) then
    Next tt (mkSys w t (log s ++ [(t, SuperTriggerAction)]))
  else Next tt (mkSys w t (log s)).
Proof.
  unfold fire_double, set_now. py_unfold. simpl.
  destruct (is_triggered (long_clock (self s))); simpl; [reflexivity|].
  destruct (has_trigger_action (self s)); reflexivity.
Qed.

Lemma fire_long_spec (s : Sys) :
  fire_long s =
  let t := Z.max (now s) (deadline (long_clock (self s))) in
  Next tt
    (mkSys
       (with_after_long_press true
          (with_long_clock (cancel (long_clock (self s))) (self s)))
       t (log s ++ [(t, Dispatch "on_long_press")])).
Proof. reflexivity. Qed.

(** ** C1: expiry of the double-click timer *)

(** C1 (counterexample): after a tap that was released before the
    double-click window closed, the long-press timer is no longer pending;
    the expiry then does forward the press: [trigger_action] is called. *)
Lemma C1_counterexample : ~ C1_as_stated.
Proof.
  intro H.
  destruct (H after_one_tap eq_refl eq_refl) as (s' & E & A & _).
  vm_compute in E. injection E as E. subst s'.
  destruct (A eq_refl) as [_ A2]. vm_compute in A2. discriminate.
Qed.

(** C1 (amended): when the double-click timer expires and the underlying
    press collaborator is present, the press is forwarded to it
    ([trigger_action]) if the long-press timer is no longer pending, and the
    state is set to pressed, with nothing forwarded, if the long-press timer
    is still pending.  Nothing is said of the state in the first case: it is
    the collaborator's to set. *)
Theorem C1_double_clock_expiry (s : Sys) :
  has_trigger_action (self s) = true ->
  exists s', fire_double s = Next tt s'
    /\ is_triggered (double_clock (self s')) = false
    /\ if is_triggered (long_clock (self s)) then
         state (self s') = down /\ log s' = log s
       else
         log s' = log s ++ [(now s', SuperTriggerAction)].
Proof.
  intros H. rewrite fire_double_spec. simpl. rewrite H.
  destruct (is_triggered (long_clock (self s))); eexists; split;
    try reflexivity; simpl; auto.
Qed.

(** C1, at the expiry that follows one tap released inside the window, and
    at the expiry during a contact that is still held. *)
Lemma C1_double_clock_expiry_witness :
  (exists s', fire_double after_one_tap = Next tt s'
     /\ is_triggered (double_clock (self s')) = false
     /\ log s' = [(200, SuperTriggerAction)])
  /\ (exists s',
        fire_double
          (final (run_until 150 [(0, TouchDown finger)]
                    (boot 0 (a_button true)))) = Next tt s'
        /\ is_triggered (double_clock (self s')) = false
        /\ state (self s') = down /\ log s' = []).
Proof.
  split.
  - destruct (C1_double_clock_expiry after_one_tap eq_refl)
      as (s' & E & D & L).
    exists s'. split; [exact E|]. split; [exact D|].
    vm_compute in E. injection E as E. subst s'. exact L.
  - exact (C1_double_clock_expiry
             (final (run_until 150 [(0, TouchDown finger)]
                       (boot 0 (a_button true)))) eq_refl).
Defined.

(** ** C9: the press collaborator is absent *)

(** C9: when [send_press] runs on a widget without the press collaborator,
    the lookup of [trigger_action] fails with [AttributeError], and
    [send_press] still returns normally, with the widget and the log as they
    were: nothing is forwarded and no error reaches the caller. *)
Theorem C9_missing_collaborator_swallowed (s : Sys) :
  has_trigger_action (self s) = false ->
  is_triggered (long_clock (self s)) = false ->
  super_trigger_action s = Raise AttributeError s
  /\ send_press s = Next PyNone s
  /\ exists s', fire_double s = Next tt s' /\ log s' = log s
       /\ self s' = with_double_clock (cancel (double_clock (self s))) (self s).
Proof.
  intros H L. split; [apply super_trigger_action_absent; exact H|].
  split.
  - rewrite send_press_spec, L, H. reflexivity.
  - rewrite fire_double_spec. simpl. rewrite L, H.
    eexists. split; [reflexivity|]. split; reflexivity.
Qed.

(** C9, at an image button, which has no [trigger_action]. *)
Lemma C9_missing_collaborator_swallowed_witness :
  send_press (boot 0 (an_image true)) = Next PyNone (boot 0 (an_image true)).
Proof.
  apply (C9_missing_collaborator_swallowed (boot 0 (an_image true)));
    reflexivity.
Defined.

(** [send_press] returns normally whatever the composition of the widget. *)
Lemma send_press_never_raises (s : Sys) :
  exists s', send_press s = Next PyNone s'.
Proof.
  rewrite send_press_spec.
  destruct (is_triggered (long_clock (self s)));
    [|destruct (has_trigger_action (self s))]; eexists; reflexivity.
Qed.

(** ** C5: arming the long-press timer on a plain pointer-down *)

(** C5 (counterexample): the second tap of a double click returns before the
    long-press timer is armed; the timer, cancelled by the first release,
    stays idle. *)
Lemma C5_counterexample : ~ C5_as_stated.
Proof.
  intro H.
  destruct (H finger before_second_tap eq_refl eq_refl eq_refl)
    as (s' & E & L).
  vm_compute in E. injection E as E. subst s'.
  vm_compute in L. discriminate.
Qed.

(** C5 (amended): a plain pointer-down that reaches the widget returns
    handled; when the double-click timer is not pending at that moment (the
    two branches that are not a double click) the long-press timer is pending
    on return, and when it is pending (the second tap of a double click) the
    long-press timer is left as it was. *)
Theorem C5_long_clock_after_plain_down (touch : Touch) (s : Sys) :
  is_plain touch = true ->
  unclaimed "on_touch_down" touch (self s) = true ->
  inside touch (self s) = true ->
  exists s', on_touch_down touch s = Next PyTrue s'
    /\ if is_triggered (double_clock (self s))
       then long_clock (self s') = long_clock (self s)
       else is_triggered (long_clock (self s')) = true.
Proof.
  intros P U I. rewrite (on_touch_down_plain touch s P U I). simpl.
  destruct (is_triggered (double_clock (self s))).
  - eexists. split; reflexivity.
  - destruct (double_click_enabled (self s)); eexists;
      (split; [reflexivity|]); simpl; unfold trigger;
      destruct (is_triggered (long_clock (self s))) eqn:E; auto.
Qed.

(** C5, at the first tap on a fresh button and at the second tap of a double
    click. *)
Lemma C5_long_clock_after_plain_down_witness :
  (exists s', on_touch_down finger (boot 0 (a_button true)) = Next PyTrue s'
     /\ is_triggered (long_clock (self s')) = true)
  /\ (exists s', on_touch_down finger before_second_tap = Next PyTrue s'
        /\ long_clock (self s') = long_clock (self before_second_tap)).
Proof.
  split.
  - exact (C5_long_clock_after_plain_down finger (boot 0 (a_button true))
             eq_refl eq_refl eq_refl).
  - exact (C5_long_clock_after_plain_down finger before_second_tap
             eq_refl eq_refl eq_refl).
Defined.

(** ** C2: right and middle clicks *)






(** ** C6: wheel events *)

(** C6 (counterexample): a wheel release over a button that is shown as
    pressed sets its state back to normal. *)
Lemma C6_counterexample : ~ C6_as_stated.
Proof.
  intro H.
  destruct (H (mouse "scrollup") after_right_down eq_refl eq_refl)
    as [_ (s' & E & S & _)].
  vm_compute in E. injection E as E. subst s'.
  vm_compute in S. discriminate.
Qed.

Lemma is_wheel_buttons (touch : Touch) :
  is_wheel touch = true ->
  in_profile "button" touch = true
  /\ button_is "right" touch = false /\ button_is "middle" touch = false
  /\ (button_is "scrollup" touch = true
      \/ (button_is "scrollup" touch = false
          /\ button_is "scrolldown" touch = true)).
Proof.
  unfold is_wheel, button_is. intros H.
  apply andb_true_iff in H. destruct H as [P B].
  split; [exact P|].
  destruct (String.eqb_spec (button touch) "scrollup") as [E|_].
  - rewrite E. repeat split. left. reflexivity.
  - simpl in B.
    destruct (String.eqb_spec (button touch) "scrolldown") as [E|_];
      [|discriminate].
    rewrite E. repeat split. right. split; reflexivity.
Qed.

(** C6 (amended): a wheel pointer-down that reaches the widget dispatches its
    scroll gesture, leaves the interaction state unchanged, forwards nothing
    and returns handled; the wheel release sets the interaction state to
    normal, changes nothing else, forwards nothing and returns handled. *)
Theorem C6_wheel_events (touch : Touch) (s : Sys) :
  is_wheel touch = true ->
  targets touch (self s) = true ->
  on_touch_down touch s =
  Next PyTrue
    (mkSys (with_second_click false (with_after_long_press false (self s)))
       (now s) (log s ++ [(now s, Dispatch (scroll_event touch))]))
  /\ on_touch_up touch s =
     Next PyTrue (mkSys (with_state normal (self s)) (now s) (log s)).
Proof.
  intros W T.
  unfold targets, unclaimed, inside in T.
  apply andb_true_iff in T. destruct T as [T I].
  apply andb_true_iff in T. destruct T as [U1 U2].
  apply negb_true_iff in U1. apply negb_true_iff in U2.
  destruct (is_wheel_buttons touch W) as (P & R & Mi & B).
  split.
  - py_unfold. rewrite for_children_spec, U1. simpl. rewrite I, P. simpl.
    rewrite R, Mi. unfold scroll_event.
    destruct B as [B|[B1 B2]].
    + rewrite B. reflexivity.
    + rewrite B1, B2. reflexivity.
  - py_unfold. rewrite for_children_spec, U2. simpl. rewrite I. simpl.
    unfold is_wheel in W. rewrite W. reflexivity.
Qed.

(** C6, at a wheel tick over a button shown as pressed. *)
Lemma C6_wheel_events_witness :
  on_touch_down (mouse "scrollup") after_right_down =
  Next PyTrue
    (mkSys
       (with_second_click false
          (with_after_long_press false (self after_right_down)))
       0 [(0, Dispatch "on_right_click"); (0, Dispatch "on_scroll_up")])
  /\ on_touch_up (mouse "scrollup") after_right_down =
     Next PyTrue
       (mkSys (with_state normal (self after_right_down)) 0
          [(0, Dispatch "on_right_click")]).
Proof.
  exact (C6_wheel_events (mouse "scrollup") after_right_down
           eq_refl eq_refl).
Defined.

(** ** C10: every pointer-up that reaches the widget is consumed *)




(** ** Runs *)

Lemma at_rest_init t lt dt dce cs cp has :
  at_rest (__init__ t lt dt dce cs cp has) = true.
Proof. unfold at_rest. simpl. rewrite !Z.eqb_refl. reflexivity. Qed.

Lemma bind_next {A B} (c : M A) (k : A -> M B) (s s' : Sys) (a : A) :
  c s = Next a s' -> bind c k s = k a s'.
Proof. unfold bind. intros ->. reflexivity. Qed.

Lemma step_clock_idle (t : Z) (s : Sys) :
  next_due t (self s) = None -> step_clock t s = Next tt s.
Proof. unfold step_clock. py_unfold. intros ->. reflexivity. Qed.

Lemma deliver_down (touch : Touch) (s s' : Sys) (r : retval) :
  on_touch_down touch s = Next r s' -> deliver (TouchDown touch) s = Next tt s'.
Proof. simpl. unfold bind. intros ->. reflexivity. Qed.

Lemma deliver_up (touch : Touch) (s s' : Sys) (r : retval) :
  on_touch_up touch s = Next r s' -> deliver (TouchUp touch) s = Next tt s'.
Proof. simpl. unfold bind. intros ->. reflexivity. Qed.

Lemma run_cons (t : Z) (i : input) (rest : list (Z * input)) (s s1 s2 : Sys) :
  advance t s = Next tt s1 ->
  deliver i s1 = Next tt s2 ->
  run ((t, i) :: rest) s = run rest s2.
Proof.
  intros A D. simpl.
  rewrite (bind_next _ _ _ _ _ A). rewrite (bind_next _ _ _ _ _ D). reflexivity.
Qed.


Lemma due_cancel (t : Z) (e : ClockEvent) : due t (cancel e) = false.
Proof. reflexivity. Qed.

Lemma due_idle (t : Z) (e : ClockEvent) :
  is_triggered e = false -> due t e = false.
Proof. unfold due. intros ->. reflexivity. Qed.

Lemma due_early (t : Z) (e : ClockEvent) : t < deadline e -> due t e = false.
Proof.
  unfold due. intros H. apply andb_false_iff. right. apply Z.leb_gt. exact H.
Qed.

Lemma due_late (t : Z) (e : ClockEvent) :
  is_triggered e = true -> deadline e <= t -> due t e = true.
Proof.
  unfold due. intros -> H. apply Z.leb_le in H. rewrite H. reflexivity.
Qed.

Lemma next_due_None (t : Z) (w : Widget) :
  due t (long_clock w) = false -> due t (double_clock w) = false ->
  next_due t w = None.
Proof. unfold next_due. intros -> ->. reflexivity. Qed.

Lemma next_due_long (t : Z) (w : Widget) :
  due t (long_clock w) = true -> due t (double_clock w) = false ->
  next_due t w = Some LongClock.
Proof. unfold next_due. intros -> ->. reflexivity. Qed.

Lemma next_due_double (t : Z) (w : Widget) :
  due t (long_clock w) = false -> due t (double_clock w) = true ->
  next_due t w = Some DoubleClock.
Proof. unfold next_due. intros -> ->. reflexivity. Qed.

Lemma next_due_double_first (t : Z) (w : Widget) :
  due t (long_clock w) = true -> due t (double_clock w) = true ->
  deadline (double_clock w) <= deadline (long_clock w) ->
  last_dt (double_clock w) <= last_dt (long_clock w) ->
  next_due t w = Some DoubleClock.
Proof.
  unfold next_due. intros -> -> H1 H2.
  destruct (Z.ltb_spec (deadline (long_clock w)) (deadline (double_clock w)));
    [lia|].
  destruct (Z.ltb_spec (deadline (double_clock w)) (deadline (long_clock w)));
    [reflexivity|].
  destruct (Z.ltb_spec (last_dt (long_clock w)) (last_dt (double_clock w)));
    [lia|reflexivity].
Qed.

Lemma next_due_long_first (t : Z) (w : Widget) :
  due t (long_clock w) = true -> due t (double_clock w) = true ->
  deadline (long_clock w) < deadline (double_clock w) ->
  next_due t w = Some LongClock.
Proof.
  unfold next_due. intros -> -> H1.
  destruct (Z.ltb_spec (deadline (long_clock w)) (deadline (double_clock w)));
    [reflexivity|lia].
Qed.

Lemma next_due_Some (t : Z) (w : Widget) (k : timer) :
  next_due t w = Some k ->
  match k with
  | LongClock => due t (long_clock w) = true
  | DoubleClock => due t (double_clock w) = true
  end.
Proof.
  unfold next_due.
  destruct (due t (long_clock w)), (due t (double_clock w)); intros H;
    try discriminate;
    repeat match type of H with
    | (if ?c then _ else _) = _ => destruct c
    end; injection H as <-; reflexivity.
Qed.

Lemma step_clock_fire (t : Z) (s : Sys) (k : timer) :
  next_due t (self s) = Some k -> step_clock t s = fire k s.
Proof. unfold step_clock, get, bind. intros ->. reflexivity. Qed.

(** One step of the clock returns normally; it leaves the system alone when
    nothing is due, and otherwise unschedules the event it ran and leaves the
    other event as it was. *)
Lemma step_clock_spec (t : Z) (s : Sys) :
  exists s', step_clock t s = Next tt s'
    /\ same_timeouts (self s) (self s')
    /\ match next_due t (self s) with
       | None => s' = s
       | Some LongClock =>
           long_clock (self s') = cancel (long_clock (self s))
           /\ double_clock (self s') = double_clock (self s)
       | Some DoubleClock =>
           double_clock (self s') = cancel (double_clock (self s))
           /\ long_clock (self s') = long_clock (self s)
       end.
Proof.
  unfold step_clock, get, bind, same_timeouts.
  destruct (next_due t (self s)) as [[|]|]; simpl.
  - rewrite fire_long_spec. eexists. split; [reflexivity|].
    repeat split; reflexivity.
  - rewrite fire_double_spec. simpl.
    destruct (is_triggered (long_clock (self s)));
      [|destruct (has_trigger_action (self s))];
      eexists; (split; [reflexivity|]); repeat split; reflexivity.
  - eexists. split; [reflexivity|]. repeat split; reflexivity.
Qed.

(** [advance] returns normally, and two steps of the clock are enough:
    nothing is due at [t] once it has run. *)
Lemma advance_quiescent (t : Z) (s : Sys) :
  exists s', advance t s = Next tt s'
    /\ same_timeouts (self s) (self s')
    /\ next_due t (self s') = None.
Proof.
  unfold advance.
  destruct (step_clock_spec t s) as (s1 & E1 & [T1 T1'] & P1).
  destruct (step_clock_spec t s1) as (s2 & E2 & [T2 T2'] & P2).
  rewrite (bind_next _ _ _ _ _ E1), (bind_next _ _ _ _ _ E2).
  eexists. split; [reflexivity|]. simpl.
  split; [split; congruence|].
  destruct (next_due t (self s)) as [k1|] eqn:N1.
  - destruct (next_due t (self s1)) as [k2|] eqn:N2.
    + apply next_due_Some in N2.
      destruct k1, k2, P1 as [A1 B1], P2 as [A2 B2];
        try (rewrite A1, due_cancel in N2; discriminate);
        apply next_due_None; rewrite ?A2, ?B2, ?A1; apply due_cancel.
    + subst s2. exact N2.
  - subst s1. rewrite N1 in P2. subst s2. exact N1.
Qed.

(** The handlers return normally for every touch, and never rebind a
    timer. *)
Lemma on_touch_down_total (touch : Touch) (s : Sys) :
  exists r s', on_touch_down touch s = Next r s'
    /\ same_timeouts (self s) (self s').
Proof.
  unfold same_timeouts.
  py_unfold. rewrite for_children_spec.
  destruct (existsb _ (children (self s))); simpl.
  { do 2 eexists. split; [reflexivity|]. split; reflexivity. }
  destruct (collide_point (self s) _ _); simpl.
  2:{ do 2 eexists. split; [reflexivity|]. split; reflexivity. }
  destruct (in_profile "button" touch); simpl.
  - destruct (button_is "right" touch); simpl.
    { do 2 eexists. split; [reflexivity|]. split; reflexivity. }
    destruct (button_is "middle" touch); simpl.
    { do 2 eexists. split; [reflexivity|]. split; reflexivity. }
    destruct (button_is "scrollup" touch); simpl.
    { do 2 eexists. split; [reflexivity|]. split; reflexivity. }
    destruct (button_is "scrolldown" touch); simpl.
    { do 2 eexists. split; [reflexivity|]. split; reflexivity. }
    destruct (is_triggered (double_clock (self s))) eqn:D; simpl.
    { do 2 eexists. split; [reflexivity|]. split; reflexivity. }
    destruct (double_click_enabled (self s)); simpl;
      unfold trigger; rewrite ?D; simpl;
      destruct (is_triggered (long_clock (self s)));
      do 2 eexists; (split; [reflexivity|]); split; reflexivity.
  - destruct (is_triggered (double_clock (self s))) eqn:D; simpl.
    { do 2 eexists. split; [reflexivity|]. split; reflexivity. }
    destruct (double_click_enabled (self s)); simpl;
      unfold trigger; rewrite ?D; simpl;
      destruct (is_triggered (long_clock (self s)));
      do 2 eexists; (split; [reflexivity|]); split; reflexivity.
Qed.

Lemma on_touch_up_total (touch : Touch) (s : Sys) :
  exists r s', on_touch_up touch s = Next r s'
    /\ same_timeouts (self s) (self s').
Proof.
  unfold same_timeouts.
  py_unfold. rewrite for_children_spec.
  destruct (existsb _ (children (self s))); simpl.
  { do 2 eexists. split; [reflexivity|]. split; reflexivity. }
  destruct (collide_point (self s) _ _); simpl.
  2:{ do 2 eexists. split; [reflexivity|]. split; reflexivity. }
  destruct (in_profile "button" touch
            && (button_is "scrollup" touch || button_is "scrolldown" touch));
    simpl.
  { do 2 eexists. split; [reflexivity|]. split; reflexivity. }
  destruct (is_triggered (long_clock (self s))); simpl.
  - destruct (double_click_enabled (self s)); simpl;
      do 2 eexists; (split; [reflexivity|]); split; reflexivity.
  - destruct (second_click (self s)); simpl.
    { do 2 eexists. split; [reflexivity|]. split; reflexivity. }
    destruct (after_long_press (self s)); simpl;
      do 2 eexists; (split; [reflexivity|]); split; reflexivity.
Qed.

Lemma same_timeouts_refl (w : Widget) : same_timeouts w w.
Proof. split; reflexivity. Qed.

Lemma same_timeouts_trans (w1 w2 w3 : Widget) :
  same_timeouts w1 w2 -> same_timeouts w2 w3 -> same_timeouts w1 w3.
Proof. unfold same_timeouts. intros [A B] [C D]. split; congruence. Qed.

Lemma deliver_total (i : input) (s : Sys) :
  exists s', deliver i s = Next tt s' /\ same_timeouts (self s) (self s').
Proof.
  destruct i as [touch|touch|v|v|b].
  - destruct (on_touch_down_total touch s) as (r & s' & E & T).
    exists s'. split; [exact (@deliver_down touch s s' r E)|exact T].
  - destruct (on_touch_up_total touch s) as (r & s' & E & T).
    exists s'. split; [exact (@deliver_up touch s s' r E)|exact T].
  - eexists. split; [reflexivity|]. split; reflexivity.
  - eexists. split; [reflexivity|]. split; reflexivity.
  - eexists. split; [reflexivity|]. split; reflexivity.
Qed.

(** X15: Every run returns normally, and no input, the assignments to
    [long_time] and [double_time] included, changes the timeout of a
    timer. *)
Lemma run_total (inputs : list (Z * input)) :
  forall s : Sys,
    exists s', run inputs s = Next tt s' /\ same_timeouts (self s) (self s').
Proof.
  induction inputs as [|[t i] rest IH]; intros s.
  - exists s. split; [reflexivity|apply same_timeouts_refl].
  - destruct (advance_quiescent t s) as (s1 & E1 & T1 & _).
    destruct (deliver_total i s1) as (s2 & E2 & T2).
    destruct (IH s2) as (s3 & E3 & T3).
    exists s3. split.
    + rewrite (@run_cons t i rest s s1 s2 E1 E2). exact E3.
    + eapply same_timeouts_trans; [|exact T3].
      eapply same_timeouts_trans; eassumption.
Qed.

(** ** Stepping through a run *)

Ltac split_bools :=
  repeat match goal with
  | H : _ && _ = true |- _ => apply andb_true_iff in H; destruct H
  | H : negb _ = true |- _ => apply negb_true_iff in H
  | H : (_ =? _) = true |- _ => apply Z.eqb_eq in H
  end.

Ltac proj :=
  cbv [self now log long_time double_time double_click_enabled
       after_long_press second_click long_clock double_clock state children
       collide_point has_trigger_action timeout is_triggered last_dt
       with_long_clock with_double_clock with_state with_second_click
       with_after_long_press trigger cancel deadline negb orb andb fire].

Ltac solve_due :=
  first
    [ apply due_idle; reflexivity
    | apply due_early; proj; lia
    | apply due_late; [reflexivity | proj; lia] ].

Ltac solve_next_due :=
  proj;
  first
    [ apply next_due_None; solve_due
    | apply next_due_long; solve_due
    | apply next_due_double; solve_due
    | apply next_due_double_first;
        [solve_due | solve_due | proj; lia | proj; lia]
    | apply next_due_long_first;
        [solve_due | solve_due | proj; lia] ].

(** Goal: [step_clock t s = Next ?a ?s']. *)
Ltac solve_step_clock :=
  first
    [ rewrite step_clock_idle by solve_next_due; reflexivity
    | rewrite (@step_clock_fire _ _ LongClock) by solve_next_due;
      proj; rewrite fire_long_spec; proj; reflexivity
    | rewrite (@step_clock_fire _ _ DoubleClock) by solve_next_due;
      proj; rewrite fire_double_spec; proj; reflexivity ].

(** Goal: [advance t s = Next ?a ?s']. *)
Ltac solve_advance :=
  unfold advance;
  erewrite bind_next by solve_step_clock;
  erewrite bind_next by solve_step_clock;
  reflexivity.

(** Goal: [deliver i s = Next ?a ?s'], for a plain touch that reaches the
    widget. *)
Ltac solve_deliver :=
  first
    [ eapply deliver_down; rewrite on_touch_down_plain by assumption;
      proj; reflexivity
    | eapply deliver_up; rewrite on_touch_up_button by assumption;
      proj; reflexivity
    | reflexivity ].

Ltac run_step :=
  erewrite run_cons; [ | solve_advance | solve_deliver ].

Ltac log_eq :=
  proj; cbn [app];
  repeat match goal with
  | |- _ :: _ = _ :: _ => f_equal
  | |- (_, _) = (_, _) => f_equal
  end; try reflexivity; try lia.

Ltac count_log :=
  cbv [dispatched press_confirms release_confirms count];
  cbn [filter snd is_dispatch is_press_confirm is_release_confirm
       String.eqb Ascii.eqb Bool.eqb List.length app].

(** ** C3: long press *)

(** C3 (counterexample): with double click disabled, the press of a contact
    that becomes a long press was forwarded at its pointer-down. *)
Lemma C3_counterexample : ~ C3_as_stated.
Proof.
  intro H.
  destruct (H (a_button false) finger 0 400 1000 eq_refl eq_refl eq_refl)
    as (s' & E & _ & P & _).
  - lia.
  - simpl. lia.
  - vm_compute in E. injection E as E. subst s'.
    vm_compute in P. discriminate.
Qed.

Ltac long_press_outcome :=
  proj; count_log; cbn [In];
  split; [reflexivity|];
  split; [first [left; f_equal; lia | right; left; f_equal; lia]|];
  split; [reflexivity|];
  split;
  [ intros D0;
    first [discriminate D0 | split; [reflexivity | left; f_equal; lia]]
  | intros D0 D1; first [discriminate D0 | reflexivity | exfalso; lia] ].

(** C3 (amended): a plain contact on a widget at rest, held for at least the
    long-press delay, yields exactly one onLongPress, at the moment the delay
    has elapsed, and no release is forwarded for it, whatever the value of
    [double_click_enabled] and whatever the two durations.  With double click
    disabled the press was forwarded at the pointer-down; with double click
    enabled and a double-click window no longer than the long-press delay, no
    press is forwarded either. *)
Theorem C3_long_press (w : Widget) (touch : Touch) (t0 t1 h : Z) :
  at_rest w = true ->
  is_plain touch = true ->
  targets touch w = true ->
  t0 <= t1 ->
  t0 + long_time w <= t1 ->
  exists s',
    run_until h (press_and_hold touch t0 t1) (boot t0 w) = Next tt s'
    /\ dispatched "on_long_press" (log s') = 1%nat
    /\ In (Z.max t0 (t0 + long_time w), Dispatch "on_long_press") (log s')
    /\ release_confirms (log s') = 0%nat
    /\ (double_click_enabled w = false ->
        press_confirms (log s') = 1%nat
        /\ In (t0, SuperOnTouchDown touch) (log s'))
    /\ (double_click_enabled w = true ->
        double_time w <= long_time w ->
        press_confirms (log s') = 0%nat).
Proof.
  intros R P T Ht Hl.
  unfold at_rest, targets in *. split_bools.
  pose proof (is_plain_not_wheel touch P) as W.
  destruct w as [lt dt dce alp sc [lto ltr lld] [dto dtr dld] st cs cp has].
  simpl in *. subst.
  unfold run_until, press_and_hold, boot.
  destruct dce.
  - destruct (Z_le_gt_dec dt lt) as [Hd|Hd].
    + (* the window closes first: [send_press] only shows the button as
         pressed *)
      eexists. split.
      * erewrite bind_next; cycle 1.
        { run_step. run_step. reflexivity. }
        solve_advance.
      * long_press_outcome.
    + (* the long press comes first: [send_press] finds the long-press timer
         idle when the window closes, before or after the release *)
      destruct has;
        (destruct (Z_le_gt_dec (t0 + dt) t1) as [L|L];
         [|destruct (Z_le_gt_dec (t0 + dt) h) as [Hh|Hh]]);
        (eexists; split;
         [ erewrite bind_next; cycle 1;
           [ run_step; run_step; reflexivity | solve_advance ]
         | long_press_outcome ]).
  - eexists. split.
    + erewrite bind_next; cycle 1.
      { run_step. run_step. reflexivity. }
      solve_advance.
    + long_press_outcome.
Qed.

(** C3, at the specification's scenario (delay 250, down at 0, up at 400)
    with double click enabled and with double click disabled. *)
Lemma C3_long_press_witness :
  (exists s',
     run_until 1000 (press_and_hold finger 0 400) (boot 0 (a_button true))
     = Next tt s'
     /\ dispatched "on_long_press" (log s') = 1%nat
     /\ In (250, Dispatch "on_long_press") (log s')
     /\ release_confirms (log s') = 0%nat
     /\ press_confirms (log s') = 0%nat)
  /\ (exists s',
        run_until 1000 (press_and_hold finger 0 400) (boot 0 (a_button false))
        = Next tt s'
        /\ dispatched "on_long_press" (log s') = 1%nat
        /\ In (250, Dispatch "on_long_press") (log s')
        /\ release_confirms (log s') = 0%nat
        /\ press_confirms (log s') = 1%nat
        /\ In (0, SuperOnTouchDown finger) (log s')).
Proof.
  split.
  - destruct (C3_long_press (a_button true) finger 0 400 1000
                eq_refl eq_refl eq_refl ltac:(lia) ltac:(simpl; lia))
      as (s' & E & D & I & R & _ & P).
    exists s'. repeat split; auto.
    apply P; [reflexivity|simpl; lia].
  - destruct (C3_long_press (a_button false) finger 0 400 1000
                eq_refl eq_refl eq_refl ltac:(lia) ltac:(simpl; lia))
      as (s' & E & D & I & R & P & _).
    destruct (P eq_refl) as [P1 P2].
    exists s'. repeat split; auto.
Defined.

(** ** C7: double click *)

(** C7 (counterexample): a tap has just been made and its window is still
    open.  Of the two taps that follow, at 150 and at 170, the first one is
    the double click; the second finds the double-click timer cancelled, so
    it starts a window of its own and is confirmed as a single click when
    that window closes. *)
Lemma C7_counterexample : ~ C7_as_stated.
Proof.
  intro H.
  destruct (H (self before_second_tap) finger finger 150 160 170 180 1000
              eq_refl eq_refl eq_refl eq_refl eq_refl)
    as (s' & E & _ & _ & P & _).
  - lia.
  - lia.
  - lia.
  - simpl. lia.
  - vm_compute in E. injection E as E. subst s'.
    vm_compute in P. discriminate.
Qed.

(** C7 (amended): on a widget at rest (both timers idle, so no window of an
    earlier tap is open, and bound to their properties) with double click
    enabled, two plain taps whose
    pointer-downs are less than the double-click window apart yield exactly
    one onDoubleClick, dispatched at the second pointer-down, and neither a
    press nor a release is forwarded for either tap. *)
Theorem C7_double_click (w : Widget) (a b : Touch) (t0 u0 t1 u1 h : Z) :
  at_rest w = true ->
  double_click_enabled w = true ->
  is_plain a = true -> targets a w = true ->
  is_plain b = true -> targets b w = true ->
  t0 <= u0 -> u0 <= t1 -> t1 <= u1 ->
  t1 - t0 < double_time w ->
  exists s',
    run_until h (two_taps a b t0 u0 t1 u1) (boot t0 w) = Next tt s'
    /\ dispatched "on_double_click" (log s') = 1%nat
    /\ In (t1, Dispatch "on_double_click") (log s')
    /\ press_confirms (log s') = 0%nat
    /\ release_confirms (log s') = 0%nat.
Proof.
  intros R D Pa Ta Pb Tb H1 H2 H3 Hw.
  unfold at_rest, targets in *. split_bools.
  pose proof (is_plain_not_wheel a Pa) as Wa.
  pose proof (is_plain_not_wheel b Pb) as Wb.
  destruct w as [lt dt dce alp sc [lto ltr lld] [dto dtr dld] st cs cp has].
  simpl in *. subst.
  unfold run_until, two_taps, boot.
  destruct (Z_le_gt_dec (t0 + lt) u0) as [L|L].
  - (* the first tap is held long enough to be a long press as well *)
    eexists. split.
    + erewrite bind_next; cycle 1.
      { run_step. run_step. run_step. run_step. reflexivity. }
      solve_advance.
    + proj. count_log. cbn [In]. repeat split.
      right. left. f_equal. lia.
  - eexists. split.
    + erewrite bind_next; cycle 1.
      { run_step. run_step. run_step. run_step. reflexivity. }
      solve_advance.
    + proj. count_log. cbn [In]. repeat split.
      left. f_equal. lia.
Qed.

(** C7, at the specification's scenario: window 200, taps at 0/10 and
    150/160. *)
Lemma C7_double_click_witness :
  exists s',
    run_until 1000 (two_taps finger finger 0 10 150 160)
      (boot 0 (a_button true)) = Next tt s'
    /\ dispatched "on_double_click" (log s') = 1%nat
    /\ In (150, Dispatch "on_double_click") (log s')
    /\ press_confirms (log s') = 0%nat
    /\ release_confirms (log s') = 0%nat.
Proof.
  apply (C7_double_click (a_button true) finger finger 0 10 150 160 1000);
    try reflexivity; simpl; lia.
Defined.

(** ** C8: the durations the timers are bound to *)

(** C8 (the code at the failing input): on a button built with the default
    durations, [long_time] is set to 1000 and [double_time] to 50 before a
    plain pointer-down at 10.  Both timers are armed with the timeouts of
    construction, 250 and 200, and a contact held until 400, shorter than the
    current [long_time], is reported as a long press at 260. *)
Theorem C8_timers_keep_construction_timeouts :
  let s := final (run reassigned_then_pressed (boot 0 (a_button true))) in
  long_time (self s) = 1000
  /\ double_time (self s) = 50
  /\ long_clock (self s)
     = {| timeout := 250; is_triggered := true; last_dt := 10 |}
  /\ double_clock (self s)
     = {| timeout := 200; is_triggered := true; last_dt := 10 |}
  /\ final_log
       (run_until 2000 (reassigned_then_pressed ++ [(400, TouchUp finger)])
          (boot 0 (a_button true)))
     = [(260, Dispatch "on_long_press")].
Proof. vm_compute. repeat split. Qed.

(** * Further properties of the handlers *)

(** X1: Both handlers return normally for every touch, and report the event as
    handled exactly when a child claimed it or it lies inside the widget,
    whatever the button it carries. *)
Theorem handled_iff_claimed_or_inside (d : direction) (touch : Touch)
    (s : Sys) :
  exists s',
    handler d touch s =
    Next (if unclaimed (event_name d) touch (self s)
             && negb (inside touch (self s))
          then PyNone else PyTrue) s'.
Proof.
  unfold unclaimed, inside.
  destruct d; simpl; py_unfold; rewrite for_children_spec;
    destruct (existsb _ (children (self s))); simpl;
    try (eexists; reflexivity);
    destruct (collide_point (self s) _ _); simpl;
    try (eexists; reflexivity).
  - destruct (in_profile "button" touch); simpl;
      [destruct (button_is "right" touch); simpl;
       [eexists; reflexivity|];
       destruct (button_is "middle" touch); simpl;
       [eexists; reflexivity|];
       destruct (button_is "scrollup" touch); simpl;
       [eexists; reflexivity|];
       destruct (button_is "scrolldown" touch); simpl;
       [eexists; reflexivity|]|];
      (destruct (is_triggered (double_clock (self s))); simpl;
       [eexists; reflexivity|];
       destruct (double_click_enabled (self s)); eexists; reflexivity).
  - destruct (in_profile "button" touch
              && (button_is "scrollup" touch || button_is "scrolldown" touch));
      simpl; [eexists; reflexivity|].
    destruct (is_triggered (long_clock (self s))); simpl.
    + destruct (double_click_enabled (self s)); eexists; reflexivity.
    + destruct (second_click (self s)); simpl; [eexists; reflexivity|].
      destruct (after_long_press (self s)); eexists; reflexivity.
Qed.

(** X2: Every pointer-down that reaches the widget, whatever its button, clears
    [after_long_press]; it leaves [second_click] set exactly when it is a
    plain contact arriving while the double-click timer is pending. *)
Theorem flags_after_pointer_down (touch : Touch) (s : Sys) :
  unclaimed "on_touch_down" touch (self s) = true ->
  inside touch (self s) = true ->
  exists s',
    on_touch_down touch s = Next PyTrue s'
    /\ after_long_press (self s') = false
    /\ second_click (self s')
       = is_plain touch && is_triggered (double_clock (self s)).
Proof.
  unfold unclaimed, inside, is_plain. intros U I.
  apply negb_true_iff in U.
  py_unfold. rewrite for_children_spec, U. simpl. rewrite I. simpl.
  destruct (in_profile "button" touch); simpl;
    [destruct (button_is "right" touch); simpl;
     [eexists; repeat split; reflexivity|];
     destruct (button_is "middle" touch); simpl;
     [eexists; repeat split; reflexivity|];
     destruct (button_is "scrollup" touch); simpl;
     [eexists; repeat split; reflexivity|];
     destruct (button_is "scrolldown" touch); simpl;
     [eexists; repeat split; reflexivity|]|];
    (destruct (is_triggered (double_clock (self s))); simpl;
     [eexists; repeat split; reflexivity|];
     destruct (double_click_enabled (self s));
     eexists; repeat split; reflexivity).
Qed.

(** X2, at a wheel tick that follows a long press
    and at the second tap of a double click. *)
Lemma flags_after_pointer_down_witness :
  (exists s',
     on_touch_down (mouse "scrollup")
       (final (run_until 300 [(0, TouchDown finger)] (boot 0 (a_button false))))
     = Next PyTrue s'
     /\ after_long_press (self s') = false
     /\ second_click (self s') = false)
  /\ (exists s',
        on_touch_down finger before_second_tap = Next PyTrue s'
        /\ after_long_press (self s') = false
        /\ second_click (self s') = true).
Proof.
  split.
  - exact (flags_after_pointer_down (mouse "scrollup")
             (final (run_until 300 [(0, TouchDown finger)]
                       (boot 0 (a_button false))))
             eq_refl eq_refl).
  - exact (flags_after_pointer_down finger before_second_tap
             eq_refl eq_refl).
Defined.

(** X3: [on_touch_up] returns normally for every touch and writes only [state]
    and [long_clock]: the flags, the double-click timer and the properties
    are as before; it dispatches no gesture and forwards no press: the log
    is unchanged, or extended by the one call [super().on_touch_up(touch)]. *)
Theorem on_touch_up_frame (touch : Touch) (s : Sys) :
  exists r s',
    on_touch_up touch s = Next r s'
    /\ release_frame (self s) (self s')
    /\ now s' = now s
    /\ (log s' = log s \/ log s' = log s ++ [(now s, SuperOnTouchUp touch)]).
Proof.
  unfold release_frame.
  py_unfold. rewrite for_children_spec.
  destruct (existsb _ (children (self s))); simpl.
  { do 2 eexists. repeat split; auto. }
  destruct (collide_point (self s) _ _); simpl.
  2:{ do 2 eexists. repeat split; auto. }
  destruct (in_profile "button" touch
            && (button_is "scrollup" touch || button_is "scrolldown" touch));
    simpl.
  { do 2 eexists. repeat split; auto. }
  destruct (is_triggered (long_clock (self s))); simpl.
  - destruct (double_click_enabled (self s)) eqn:D; simpl;
      do 2 eexists; repeat split; simpl; auto.
  - destruct (second_click (self s)) eqn:S2; simpl.
    { do 2 eexists. repeat split; simpl; auto. }
    destruct (after_long_press (self s)) eqn:A; simpl;
      do 2 eexists; repeat split; simpl; auto.
Qed.

(** X4: After the release of a contact (any pointer-up that reaches the widget
    and is not a wheel release) the long-press timer is not pending, so no
    long press can fire for a contact that has ended. *)
Theorem release_cancels_long_press (touch : Touch) (s : Sys) :
  is_wheel touch = false ->
  unclaimed "on_touch_up" touch (self s) = true ->
  inside touch (self s) = true ->
  exists s',
    on_touch_up touch s = Next PyTrue s'
    /\ is_triggered (long_clock (self s')) = false
    /\ forall t, next_due t (self s') <> Some LongClock.
Proof.
  intros W U I.
  assert (G : exists s', on_touch_up touch s = Next PyTrue s'
                /\ is_triggered (long_clock (self s')) = false).
  { rewrite (on_touch_up_button touch s W U I). simpl.
    destruct (is_triggered (long_clock (self s))) eqn:L.
    - destruct (double_click_enabled (self s)); eexists; split; reflexivity.
    - destruct (second_click (self s) || after_long_press (self s));
        eexists; (split; [reflexivity|exact L]). }
  destruct G as (s' & E & L).
  exists s'. split; [exact E|]. split; [exact L|].
  intros t N. apply next_due_Some in N. simpl in N.
  unfold due in N. rewrite L in N. discriminate.
Qed.

(** X4, at the release of a tap held for 100. *)
Lemma release_cancels_long_press_witness :
  exists s',
    on_touch_up finger
      (final (run_until 100 [(0, TouchDown finger)] (boot 0 (a_button true))))
    = Next PyTrue s'
    /\ is_triggered (long_clock (self s')) = false.
Proof.
  destruct (release_cancels_long_press finger
              (final (run_until 100 [(0, TouchDown finger)]
                        (boot 0 (a_button true))))
              eq_refl eq_refl eq_refl) as (s' & E & L & _).
  exists s'. split; [exact E|exact L].
Defined.

(** * Invariants of whole runs *)

Lemma count_snoc (p : effect -> bool) (l : list (Z * effect))
    (x : Z * effect) :
  count p (l ++ [x]) = (count p l + if p (snd x) then 1 else 0)%nat.
Proof.
  unfold count. rewrite filter_app, length_app. simpl.
  destruct (p (snd x)); reflexivity.
Qed.

(** What holds while double click stays disabled. *)
Lemma on_touch_down_double_click_off (touch : Touch) (s : Sys) :
  double_click_enabled (self s) = false ->
  is_triggered (double_clock (self s)) = false ->
  second_click (self s) = false ->
  exists r s',
    on_touch_down touch s = Next r s'
    /\ double_click_enabled (self s') = false
    /\ is_triggered (double_clock (self s')) = false
    /\ second_click (self s') = false
    /\ dispatched "on_double_click" (log s')
       = dispatched "on_double_click" (log s)
    /\ trigger_actions (log s') = trigger_actions (log s).
Proof.
  intros E D S2.
  unfold dispatched, trigger_actions.
  py_unfold. rewrite for_children_spec.
  destruct (existsb _ (children (self s))); simpl.
  { do 2 eexists. repeat split; auto. }
  destruct (collide_point (self s) _ _); simpl.
  2:{ do 2 eexists. repeat split; auto. }
  destruct (in_profile "button" touch); simpl;
    [destruct (button_is "right" touch); simpl;
     [do 2 eexists; repeat split; simpl; auto;
      rewrite count_snoc; simpl; lia|];
     destruct (button_is "middle" touch); simpl;
     [do 2 eexists; repeat split; simpl; auto;
      rewrite count_snoc; simpl; lia|];
     destruct (button_is "scrollup" touch); simpl;
     [do 2 eexists; repeat split; simpl; auto;
      rewrite count_snoc; simpl; lia|];
     destruct (button_is "scrolldown" touch); simpl;
     [do 2 eexists; repeat split; simpl; auto;
      rewrite count_snoc; simpl; lia|]|];
    rewrite D; simpl; rewrite E; simpl;
    do 2 eexists; repeat split; simpl; auto;
    rewrite count_snoc; simpl; lia.
Qed.

Lemma on_touch_up_double_click_off (touch : Touch) (s : Sys) :
  double_click_enabled (self s) = false ->
  is_triggered (double_clock (self s)) = false ->
  second_click (self s) = false ->
  exists r s',
    on_touch_up touch s = Next r s'
    /\ double_click_enabled (self s') = false
    /\ is_triggered (double_clock (self s')) = false
    /\ second_click (self s') = false
    /\ dispatched "on_double_click" (log s')
       = dispatched "on_double_click" (log s)
    /\ trigger_actions (log s') = trigger_actions (log s).
Proof.
  intros E D S2.
  unfold dispatched, trigger_actions.
  py_unfold. rewrite for_children_spec.
  destruct (existsb _ (children (self s))); simpl.
  { do 2 eexists. repeat split; auto. }
  destruct (collide_point (self s) _ _); simpl.
  2:{ do 2 eexists. repeat split; auto. }
  destruct (in_profile "button" touch
            && (button_is "scrollup" touch || button_is "scrolldown" touch));
    simpl.
  { do 2 eexists. repeat split; auto. }
  destruct (is_triggered (long_clock (self s))); simpl;
    rewrite ?E, ?S2; simpl.
  - do 2 eexists. repeat split; simpl; auto; rewrite count_snoc; simpl; lia.
  - destruct (after_long_press (self s)); simpl;
      do 2 eexists; repeat split; simpl; auto;
      rewrite count_snoc; simpl; lia.
Qed.

Lemma step_clock_double_click_off (t : Z) (s : Sys) :
  double_click_enabled (self s) = false ->
  is_triggered (double_clock (self s)) = false ->
  second_click (self s) = false ->
  exists s',
    step_clock t s = Next tt s'
    /\ double_click_enabled (self s') = false
    /\ is_triggered (double_clock (self s')) = false
    /\ second_click (self s') = false
    /\ dispatched "on_double_click" (log s')
       = dispatched "on_double_click" (log s)
    /\ trigger_actions (log s') = trigger_actions (log s).
Proof.
  intros E D S2.
  unfold step_clock, get, bind, next_due.
  rewrite (due_idle t (double_clock (self s)) D).
  destruct (due t (long_clock (self s))); simpl.
  - rewrite fire_long_spec. simpl. eexists. repeat split; simpl; auto;
      unfold dispatched, trigger_actions; rewrite count_snoc; simpl; lia.
  - exists s. repeat split; auto.
Qed.

Lemma advance_double_click_off (t : Z) (s : Sys) :
  double_click_enabled (self s) = false ->
  is_triggered (double_clock (self s)) = false ->
  second_click (self s) = false ->
  exists s',
    advance t s = Next tt s'
    /\ double_click_enabled (self s') = false
    /\ is_triggered (double_clock (self s')) = false
    /\ second_click (self s') = false
    /\ dispatched "on_double_click" (log s')
       = dispatched "on_double_click" (log s)
    /\ trigger_actions (log s') = trigger_actions (log s).
Proof.
  intros E D S2. unfold advance.
  destruct (step_clock_double_click_off t s E D S2)
    as (s1 & A1 & E1 & D1 & S1 & C1 & T1).
  destruct (step_clock_double_click_off t s1 E1 D1 S1)
    as (s2 & A2 & E2 & D2 & S2' & C2 & T2).
  rewrite (bind_next _ _ _ _ _ A1), (bind_next _ _ _ _ _ A2).
  eexists. split; [reflexivity|]. simpl.
  repeat split; auto; congruence.
Qed.

(** X13: From a state in which double click is disabled, the double-click
    timer is idle and [second_click] is false (the state [__init__] leaves
    with the default [double_click_enabled = False]), and as long as no
    input enables double click, the double-click machinery is inert in
    every run: the double-click timer is never armed, [second_click] stays
    false, no onDoubleClick is dispatched and [send_press] never calls
    [trigger_action]. *)
Theorem double_click_disabled_is_inert (inputs : list (Z * input)) :
  forall s : Sys,
    double_click_enabled (self s) = false ->
    is_triggered (double_clock (self s)) = false ->
    second_click (self s) = false ->
    never_enables inputs = true ->
    exists s',
      run inputs s = Next tt s'
      /\ double_click_enabled (self s') = false
      /\ is_triggered (double_clock (self s')) = false
      /\ second_click (self s') = false
      /\ dispatched "on_double_click" (log s')
         = dispatched "on_double_click" (log s)
      /\ trigger_actions (log s') = trigger_actions (log s).
Proof.
  induction inputs as [|[t i] rest IH]; intros s E D S2 N.
  - exists s. repeat split; auto.
  - simpl in N. apply andb_true_iff in N. destruct N as [Ni N].
    destruct (advance_double_click_off t s E D S2)
      as (s1 & A1 & E1 & D1 & S1 & C1 & T1).
    assert (G : exists s2,
      deliver i s1 = Next tt s2
      /\ double_click_enabled (self s2) = false
      /\ is_triggered (double_clock (self s2)) = false
      /\ second_click (self s2) = false
      /\ dispatched "on_double_click" (log s2)
         = dispatched "on_double_click" (log s1)
      /\ trigger_actions (log s2) = trigger_actions (log s1)).
    { destruct i as [touch|touch|v|v|b].
      - destruct (on_touch_down_double_click_off touch s1 E1 D1 S1)
          as (r & s2 & U & P).
        exists s2. split; [exact (deliver_down touch s1 s2 r U)|exact P].
      - destruct (on_touch_up_double_click_off touch s1 E1 D1 S1)
          as (r & s2 & U & P).
        exists s2. split; [exact (deliver_up touch s1 s2 r U)|exact P].
      - eexists. split; [reflexivity|]. repeat split; auto.
      - eexists. split; [reflexivity|]. repeat split; auto.
      - destruct b; [discriminate|].
        eexists. split; [reflexivity|]. repeat split; auto. }
    destruct G as (s2 & A2 & E2 & D2 & S2' & C2 & T2).
    destruct (IH s2 E2 D2 S2' N) as (s3 & A3 & E3 & D3 & S3 & C3 & T3).
    exists s3. split.
    + rewrite (run_cons t i rest s s1 s2 A1 A2). exact A3.
    + repeat split; auto; congruence.
Qed.

(** X13, at two quick taps, a right click and a
    change of [double_time] on a button with the defaults. *)
Lemma double_click_disabled_is_inert_witness :
  exists s',
    run (two_taps finger finger 0 10 50 60
         ++ [(70, TouchDown (mouse "right")); (80, SetDoubleTime 500);
             (90, TouchDown finger)])
      (boot 0 (a_button false)) = Next tt s'
    /\ is_triggered (double_clock (self s')) = false
    /\ dispatched "on_double_click" (log s') = 0%nat
    /\ trigger_actions (log s') = 0%nat.
Proof.
  destruct (double_click_disabled_is_inert
              (two_taps finger finger 0 10 50 60
               ++ [(70, TouchDown (mouse "right")); (80, SetDoubleTime 500);
                   (90, TouchDown finger)])
              (boot 0 (a_button false)) eq_refl eq_refl eq_refl eq_refl)
    as (s' & A & _ & D & _ & C & T).
  exists s'. split; [exact A|]. split; [exact D|]. split; [exact C|exact T].
Defined.

(** * Further scenarios *)

Ltac scenario_setup :=
  unfold at_rest, targets in *; split_bools;
  repeat match goal with
  | H : is_plain ?a = true |- _ =>
      lazymatch goal with
      | _ : is_wheel a = false |- _ => fail
      | _ => pose proof (is_plain_not_wheel a H)
      end
  end.

(** X6: An ordinary click: with double click disabled, a plain contact on a
    widget at rest that is released before the long-press delay has elapsed
    forwards its press at the pointer-down and its release at the pointer-up,
    and nothing else happens, then or later. *)
Theorem plain_click_forwards_press_and_release
    (w : Widget) (touch : Touch) (t0 t1 h : Z) :
  at_rest w = true ->
  double_click_enabled w = false ->
  is_plain touch = true ->
  targets touch w = true ->
  t0 <= t1 ->
  t1 < t0 + long_time w ->
  exists s',
    run_until h (press_and_hold touch t0 t1) (boot t0 w) = Next tt s'
    /\ log s' = [(t0, SuperOnTouchDown touch); (t1, SuperOnTouchUp touch)]
    /\ state (self s') = normal.
Proof.
  intros R D P T Ht Hl.
  scenario_setup.
  destruct w as [lt dt dce alp sc [lto ltr lld] [dto dtr dld] st cs cp has].
  simpl in *. subst.
  unfold run_until, press_and_hold, boot.
  eexists. split.
  - erewrite bind_next; cycle 1.
    { run_step. run_step. reflexivity. }
    solve_advance.
  - split; [log_eq|reflexivity].
Qed.

(** X6, at a click of 100 on a button
    with the defaults. *)
Lemma plain_click_forwards_press_and_release_witness :
  exists s',
    run_until 1000 (press_and_hold finger 0 100) (boot 0 (a_button false))
    = Next tt s'
    /\ log s' = [(0, SuperOnTouchDown finger); (100, SuperOnTouchUp finger)]
    /\ state (self s') = normal.
Proof.
  apply (plain_click_forwards_press_and_release
           (a_button false) finger 0 100 1000);
    try reflexivity; simpl; lia.
Defined.

(** X7: The delayed single click: with double click enabled, a plain tap on a
    widget at rest, released before both the double-click window and the
    long-press delay have elapsed, forwards nothing until the window closes;
    at that moment, and only if the press collaborator is present,
    [trigger_action] is called once.  The release itself is never
    forwarded. *)
Theorem single_tap_is_confirmed_when_window_closes
    (w : Widget) (touch : Touch) (t0 t1 h : Z) :
  at_rest w = true ->
  double_click_enabled w = true ->
  is_plain touch = true ->
  targets touch w = true ->
  t0 <= t1 ->
  t1 < t0 + long_time w ->
  t1 < t0 + double_time w ->
  exists s',
    run_until h (press_and_hold touch t0 t1) (boot t0 w) = Next tt s'
    /\ log s' =
       if has_trigger_action w && (t0 + double_time w <=? h)
       then [(t0 + double_time w, SuperTriggerAction)] else [].
Proof.
  intros R D P T Ht Hl Hd.
  scenario_setup.
  destruct w as [lt dt dce alp sc [lto ltr lld] [dto dtr dld] st cs cp has].
  simpl in *. subst.
  unfold run_until, press_and_hold, boot.
  destruct (Z.leb_spec (t0 + dt) h) as [Hh|Hh]; destruct has;
    (eexists; split;
     [ erewrite bind_next; cycle 1;
       [ run_step; run_step; reflexivity | solve_advance ]
     | log_eq ]).
Qed.

(** X7, at a tap of 10 on a button
    with the defaults, observed at 1000. *)
Lemma single_tap_is_confirmed_when_window_closes_witness :
  exists s',
    run_until 1000 (press_and_hold finger 0 10) (boot 0 (a_button true))
    = Next tt s'
    /\ log s' = [(200, SuperTriggerAction)].
Proof.
  apply (single_tap_is_confirmed_when_window_closes
           (a_button true) finger 0 10 1000);
    try reflexivity; simpl; lia.
Defined.

(** X8: A click that is lost: with double click enabled, a plain contact on a
    widget at rest that is still held when the double-click window closes
    and is released before the long-press delay has elapsed produces nothing
    at all: [send_press] only shows the button as pressed, and the release
    is suppressed. *)
Theorem click_between_window_and_delay_is_dropped
    (w : Widget) (touch : Touch) (t0 t1 h : Z) :
  at_rest w = true ->
  double_click_enabled w = true ->
  is_plain touch = true ->
  targets touch w = true ->
  t0 + double_time w <= t1 ->
  t0 <= t1 ->
  t1 < t0 + long_time w ->
  exists s',
    run_until h (press_and_hold touch t0 t1) (boot t0 w) = Next tt s'
    /\ log s' = []
    /\ state (self s') = normal.
Proof.
  intros R D P T Hd Ht Hl.
  scenario_setup.
  destruct w as [lt dt dce alp sc [lto ltr lld] [dto dtr dld] st cs cp has].
  simpl in *. subst.
  unfold run_until, press_and_hold, boot.
  eexists. split.
  - erewrite bind_next; cycle 1.
    { run_step. run_step. reflexivity. }
    solve_advance.
  - split; reflexivity.
Qed.

(** X8, at a click of 220 on a
    button with the defaults (window 200, delay 250). *)
Lemma click_between_window_and_delay_is_dropped_witness :
  exists s',
    run_until 1000 (press_and_hold finger 0 220) (boot 0 (a_button true))
    = Next tt s'
    /\ log s' = []
    /\ state (self s') = normal.
Proof.
  apply (click_between_window_and_delay_is_dropped
           (a_button true) finger 0 220 1000);
    try reflexivity; simpl; lia.
Defined.

(** X9: When the long-press delay is shorter than the double-click window, a
    plain contact held for at least the delay, with double click enabled and
    the press collaborator present, is reported as a long press and, when
    the window closes, is also handed on as a press by [send_press]. *)
Theorem long_press_before_window_closes_also_presses
    (w : Widget) (touch : Touch) (t0 t1 h : Z) :
  at_rest w = true ->
  double_click_enabled w = true ->
  has_trigger_action w = true ->
  is_plain touch = true ->
  targets touch w = true ->
  long_time w < double_time w ->
  t0 <= t1 ->
  t0 + long_time w <= t1 ->
  t0 + double_time w <= h ->
  exists s',
    run_until h (press_and_hold touch t0 t1) (boot t0 w) = Next tt s'
    /\ log s' =
       [(Z.max t0 (t0 + long_time w), Dispatch "on_long_press");
        (Z.max t0 (t0 + double_time w), SuperTriggerAction)].
Proof.
  intros R D A P T Hr Ht Hl Hh.
  scenario_setup.
  destruct w as [lt dt dce alp sc [lto ltr lld] [dto dtr dld] st cs cp has].
  simpl in *. subst.
  unfold run_until, press_and_hold, boot.
  destruct (Z_le_gt_dec (t0 + dt) t1) as [L|L];
    (eexists; split;
     [ erewrite bind_next; cycle 1;
       [ run_step; run_step; reflexivity | solve_advance ]
     | log_eq ]).
Qed.

(** X9, at delay 100 and window
    200. *)
Lemma long_press_before_window_closes_also_presses_witness :
  exists s',
    run_until 1000 (press_and_hold finger 0 400)
      (boot 0 (__init__ 0 100 200 true [] everywhere true)) = Next tt s'
    /\ log s' =
       [(100, Dispatch "on_long_press"); (200, SuperTriggerAction)].
Proof.
  apply (long_press_before_window_closes_also_presses
           (__init__ 0 100 200 true [] everywhere true) finger 0 400 1000);
    try reflexivity; simpl; lia.
Defined.

(** X10: Two taps that are not a double click: when the second pointer-down
    arrives once the window of the first has closed, each tap is confirmed
    on its own, [trigger_action] being called when each window closes, and
    no onDoubleClick is dispatched. *)
Theorem taps_a_window_apart_are_two_clicks
    (w : Widget) (a b : Touch) (t0 u0 t1 u1 h : Z) :
  at_rest w = true ->
  double_click_enabled w = true ->
  has_trigger_action w = true ->
  is_plain a = true -> targets a w = true ->
  is_plain b = true -> targets b w = true ->
  t0 <= u0 -> u0 < t0 + long_time w -> u0 < t0 + double_time w ->
  t0 + double_time w <= t1 ->
  t1 <= u1 -> u1 < t1 + long_time w -> u1 < t1 + double_time w ->
  t1 + double_time w <= h ->
  exists s',
    run_until h (two_taps a b t0 u0 t1 u1) (boot t0 w) = Next tt s'
    /\ log s' =
       [(t0 + double_time w, SuperTriggerAction);
        (t1 + double_time w, SuperTriggerAction)].
Proof.
  intros R D A Pa Ta Pb Tb H1 H2 H3 H4 H5 H6 H7 H8.
  scenario_setup.
  destruct w as [lt dt dce alp sc [lto ltr lld] [dto dtr dld] st cs cp has].
  simpl in *. subst.
  unfold run_until, two_taps, boot.
  eexists. split.
  - erewrite bind_next; cycle 1.
    { run_step. run_step. run_step. run_step. reflexivity. }
    solve_advance.
  - log_eq.
Qed.

(** X10, at taps at 0 and at 300 on a button
    with the defaults. *)
Lemma taps_a_window_apart_are_two_clicks_witness :
  exists s',
    run_until 1000 (two_taps finger finger 0 10 300 310)
      (boot 0 (a_button true)) = Next tt s'
    /\ log s' = [(200, SuperTriggerAction); (500, SuperTriggerAction)].
Proof.
  apply (taps_a_window_apart_are_two_clicks
           (a_button true) finger finger 0 10 300 310 1000);
    try reflexivity; simpl; lia.
Defined.



(** A wheel event that reaches the widget: the pointer-down dispatches the
    scroll gesture and clears the two flags; the release only sets the state
    to normal. *)
Lemma on_touch_wheel (touch : Touch) (s : Sys) :
  is_wheel touch = true ->
  unclaimed "on_touch_down" touch (self s) = true ->
  unclaimed "on_touch_up" touch (self s) = true ->
  inside touch (self s) = true ->
  on_touch_down touch s =
  Next PyTrue
    (mkSys (with_second_click false (with_after_long_press false (self s)))
       (now s) (log s ++ [(now s, Dispatch (scroll_event touch))]))
  /\ on_touch_up touch s =
     Next PyTrue (mkSys (with_state normal (self s)) (now s) (log s)).
Proof.
  unfold unclaimed, inside. intros W U1 U2 I.
  apply negb_true_iff in U1. apply negb_true_iff in U2.
  destruct (is_wheel_buttons touch W) as (P & R & Mi & B).
  split.
  - py_unfold. rewrite for_children_spec, U1. simpl. rewrite I, P. simpl.
    rewrite R, Mi. unfold scroll_event.
    destruct B as [B|[B1 B2]].
    + rewrite B. reflexivity.
    + rewrite B1, B2. reflexivity.
  - py_unfold. rewrite for_children_spec, U2. simpl. rewrite I. simpl.
    unfold is_wheel in W. rewrite W. reflexivity.
Qed.

(** X12: A wheel tick while a long press is being held lets the release through:
    with double click disabled, a plain contact on a widget at rest is held
    past the long-press delay, the wheel ticks once, and the contact is
    released.  The wheel's pointer-down has cleared [after_long_press], so
    the release, which a long press otherwise suppresses, is forwarded. *)
Theorem wheel_tick_after_long_press_unblocks_release
    (w : Widget) (touch wheel : Touch) (t0 tw t1 h : Z) :
  at_rest w = true ->
  double_click_enabled w = false ->
  is_plain touch = true -> targets touch w = true ->
  is_wheel wheel = true -> targets wheel w = true ->
  t0 <= tw -> t0 + long_time w <= tw -> tw <= t1 ->
  exists s',
    run_until h (hold_with_wheel_tick touch wheel t0 tw t1) (boot t0 w)
    = Next tt s'
    /\ log s' =
       [(t0, SuperOnTouchDown touch);
        (Z.max t0 (t0 + long_time w), Dispatch "on_long_press");
        (tw, Dispatch (scroll_event wheel));
        (t1, SuperOnTouchUp touch)].
Proof.
  intros R D P T W Tw H1 H2 H3.
  scenario_setup.
  destruct w as [lt dt dce alp sc [lto ltr lld] [dto dtr dld] st cs cp has].
  simpl in *. subst.
  unfold run_until, hold_with_wheel_tick, boot.
  eexists. split.
  - erewrite bind_next; cycle 1.
    { run_step.
      erewrite run_cons;
        [ | solve_advance
          | eapply deliver_down;
            match goal with
            | |- on_touch_down ?a ?s = _ =>
                destruct (on_touch_wheel a s) as [E _];
                [assumption ..|rewrite E; proj; reflexivity]
            end ].
      erewrite run_cons;
        [ | solve_advance
          | eapply deliver_up;
            match goal with
            | |- on_touch_up ?a ?s = _ =>
                destruct (on_touch_wheel a s) as [_ E];
                [assumption ..|rewrite E; proj; reflexivity]
            end ].
      run_step. reflexivity. }
    solve_advance.
  - log_eq.
Qed.

(** X12, at a contact from 0 to
    400 with a wheel tick at 300, on a button with the defaults. *)
Lemma wheel_tick_after_long_press_unblocks_release_witness :
  exists s',
    run_until 1000
      (hold_with_wheel_tick finger (mouse "scrollup") 0 300 400)
      (boot 0 (a_button false)) = Next tt s'
    /\ log s' =
       [(0, SuperOnTouchDown finger);
        (250, Dispatch "on_long_press");
        (300, Dispatch "on_scroll_up");
        (400, SuperOnTouchUp finger)].
Proof.
  apply (wheel_tick_after_long_press_unblocks_release
           (a_button false) finger (mouse "scrollup") 0 300 400 1000);
    try reflexivity; simpl; lia.
Defined.


(** * What a run never writes *)

Lemma same_config_refl (w : Widget) : same_config w w.
Proof. repeat split. Qed.

Lemma same_config_trans (w1 w2 w3 : Widget) :
  same_config w1 w2 -> same_config w2 w3 -> same_config w1 w3.
Proof.
  unfold same_config.
  intros (A1 & A2 & A3 & A4 & A5 & A6) (B1 & B2 & B3 & B4 & B5 & B6).
  repeat split; congruence.
Qed.

Lemma on_touch_down_keeps_config (touch : Touch) (s : Sys) :
  exists r s', on_touch_down touch s = Next r s'
    /\ same_config (self s) (self s').
Proof.
  unfold same_config.
  py_unfold. rewrite for_children_spec.
  destruct (existsb _ (children (self s))); simpl.
  { do 2 eexists. repeat split; simpl; congruence. }
  destruct (collide_point (self s) _ _); simpl.
  2:{ do 2 eexists. repeat split; simpl; congruence. }
  destruct (in_profile "button" touch); simpl;
    [destruct (button_is "right" touch); simpl;
     [do 2 eexists; repeat split; simpl; congruence|];
     destruct (button_is "middle" touch); simpl;
     [do 2 eexists; repeat split; simpl; congruence|];
     destruct (button_is "scrollup" touch); simpl;
     [do 2 eexists; repeat split; simpl; congruence|];
     destruct (button_is "scrolldown" touch); simpl;
     [do 2 eexists; repeat split; simpl; congruence|]|];
    (destruct (is_triggered (double_clock (self s))); simpl;
     [do 2 eexists; repeat split; simpl; congruence|];
     destruct (double_click_enabled (self s)) eqn:DE; simpl;
     do 2 eexists; repeat split; simpl; congruence).
Qed.

Lemma on_touch_up_keeps_config (touch : Touch) (s : Sys) :
  exists r s', on_touch_up touch s = Next r s'
    /\ same_config (self s) (self s').
Proof.
  unfold same_config.
  py_unfold. rewrite for_children_spec.
  destruct (existsb _ (children (self s))); simpl.
  { do 2 eexists. repeat split; simpl; congruence. }
  destruct (collide_point (self s) _ _); simpl.
  2:{ do 2 eexists. repeat split; simpl; congruence. }
  destruct (in_profile "button" touch
            && (button_is "scrollup" touch || button_is "scrolldown" touch));
    simpl.
  { do 2 eexists. repeat split; simpl; congruence. }
  destruct (is_triggered (long_clock (self s))); simpl.
  - destruct (double_click_enabled (self s)) eqn:DE; simpl;
      do 2 eexists; repeat split; simpl; congruence.
  - destruct (second_click (self s)); simpl.
    { do 2 eexists. repeat split; simpl; congruence. }
    destruct (after_long_press (self s)); simpl;
      do 2 eexists; repeat split; simpl; congruence.
Qed.

Lemma step_clock_keeps_config (t : Z) (s : Sys) :
  exists s', step_clock t s = Next tt s' /\ same_config (self s) (self s').
Proof.
  unfold step_clock, get, bind, same_config.
  destruct (next_due t (self s)) as [[|]|]; simpl.
  - rewrite fire_long_spec. eexists. repeat split; reflexivity.
  - rewrite fire_double_spec. simpl.
    destruct (is_triggered (long_clock (self s)));
      [|destruct (has_trigger_action (self s)) eqn:HA];
      eexists; repeat split; simpl; congruence.
  - eexists. repeat split; reflexivity.
Qed.

Lemma advance_keeps_config (t : Z) (s : Sys) :
  exists s', advance t s = Next tt s' /\ same_config (self s) (self s').
Proof.
  unfold advance.
  destruct (step_clock_keeps_config t s) as (s1 & E1 & C1).
  destruct (step_clock_keeps_config t s1) as (s2 & E2 & C2).
  rewrite (bind_next _ _ _ _ _ E1), (bind_next _ _ _ _ _ E2).
  eexists. split; [reflexivity|]. simpl.
  eapply same_config_trans; eassumption.
Qed.

(** X14: Whatever pointer events arrive and whichever timers expire, the run
    returns normally (no exception reaches the host) and the handlers and
    callbacks write neither the three properties, nor the children, the hit
    test or the composition of the widget, nor the timeouts of the two
    timers: the mixin only ever writes its two flags, [state] and the
    scheduling of its timers. *)
Theorem pointer_events_keep_configuration (inputs : list (Z * input)) :
  forall s : Sys,
    only_pointer_events inputs = true ->
    exists s',
      run inputs s = Next tt s'
      /\ same_config (self s) (self s')
      /\ same_timeouts (self s) (self s').
Proof.
  induction inputs as [|[t i] rest IH]; intros s N.
  - exists s. split; [reflexivity|].
    split; [apply same_config_refl|apply same_timeouts_refl].
  - simpl in N. apply andb_true_iff in N. destruct N as [Ni N].
    destruct (advance_keeps_config t s) as (s1 & E1 & C1).
    destruct (advance_quiescent t s) as (s1' & E1' & T1 & _).
    assert (s1' = s1) by congruence. subst s1'.
    assert (G : exists s2, deliver i s1 = Next tt s2
                  /\ same_config (self s1) (self s2)
                  /\ same_timeouts (self s1) (self s2)).
    { destruct i as [touch|touch|v|v|b]; try discriminate.
      - destruct (on_touch_down_keeps_config touch s1) as (r & s2 & U & C).
        destruct (on_touch_down_total touch s1) as (r' & s2' & U' & T).
        assert (s2' = s2) by congruence. subst s2'.
        exists s2. split; [exact (deliver_down touch s1 s2 r U)|]. auto.
      - destruct (on_touch_up_keeps_config touch s1) as (r & s2 & U & C).
        destruct (on_touch_up_total touch s1) as (r' & s2' & U' & T).
        assert (s2' = s2) by congruence. subst s2'.
        exists s2. split; [exact (deliver_up touch s1 s2 r U)|]. auto. }
    destruct G as (s2 & E2 & C2 & T2).
    destruct (IH s2 N) as (s3 & E3 & C3 & T3).
    exists s3. split.
    + rewrite (run_cons t i rest s s1 s2 E1 E2). exact E3.
    + split.
      * eapply same_config_trans; [|exact C3].
        eapply same_config_trans; eassumption.
      * eapply same_timeouts_trans; [|exact T3].
        eapply same_timeouts_trans; eassumption.
Qed.

(** X14, at a double click followed by a
    right click on an image button. *)
Lemma pointer_events_keep_configuration_witness :
  exists s',
    run (two_taps finger finger 0 10 50 60
         ++ press_and_hold (mouse "right") 500 510)
      (boot 0 (an_image true)) = Next tt s'
    /\ same_config (an_image true) (self s')
    /\ same_timeouts (an_image true) (self s').
Proof.
  exact (pointer_events_keep_configuration
           (two_taps finger finger 0 10 50 60
            ++ press_and_hold (mouse "right") 500 510)
           (boot 0 (an_image true)) eq_refl).
Defined.

(** * The demo *)

(** X16: The text that [Base.change_state] gives to the label tells the widget and
    the gesture apart: two calls produce the same text only for the same kind
    of widget and the same gesture text. *)
Theorem change_state_injective (b1 b2 : bool) (t1 t2 : string) :
  change_state b1 t1 = change_state b2 t2 -> b1 = b2 /\ t1 = t2.
Proof.
  unfold change_state.
  destruct b1, b2; simpl; intros H; inversion H; auto.
Qed.

(** X16, at the demo's button and image. *)
Lemma change_state_injective_witness :
  change_state true "Long press!" = change_state true "Long press!"
  /\ (true = true /\ "Long press!" = "Long press!").
Proof.
  split; [reflexivity|].
  apply (change_state_injective true true "Long press!" "Long press!").
  reflexivity.
Defined.
